(** * Vigilix: the Controller of the terminal dashboard (internal/ui/ui.go)

    A shallow embedding of the Bubble Tea model of [internal/ui/ui.go] and of
    the parts of [internal/systemd] it talks to, with the properties of the
    specification stated over it.

    Conventions.
    - A Go [string] is a sequence of bytes: Rocq's [string].
    - A Go [int] used for layout is a [Z] with the 64-bit wrap-around written
      out ([Go.int_sub]); [len] of a slice is a [nat].
    - A Go [error] is modelled by its [Error()] text; a nilable error is an
      [option error].
    - A Go panic (slice bound out of range, [strings.Repeat] with a negative
      count or a result too long to allocate) is the result [None].
    - The widgets of the bubbles library, the lipgloss renderer and the
      Unicode tables of package [strings] are not part of the repository:
      they are the interfaces [Widgets] and [Terminal]; the Controller is
      written against them, and [Plain] instantiates them for running the
      Controller on concrete inputs.
    - Side effects of the Controller (cancelling a context, making a channel,
      starting the [StreamLogs] goroutine) act on an explicit [Runtime]. *)

From Stdlib Require Import ZArith String Ascii List Floats Lia.
From stdpp Require Import base list strings gmap.

Set Default Proof Using "Type".

(** ** Go primitives used by the source *)
Module Go.

(** [strings.Contains(s, substr)]: [substr] occurs in [s], byte-wise. *)
Fixpoint strings_Contains (s substr : string) : bool :=
  String.prefix substr s ||
  match s with
  | EmptyString => false
  | String _ s' => strings_Contains s' substr
  end.

(** [s[:n]] on a string: panics unless [0 <= n <= len(s)]. *)
Definition slice_to (s : string) (n : Z) : option string :=
  if (0 <=? n)%Z && (n <=? Z.of_nat (String.length s))%Z
  then Some (String.substring 0 (Z.to_nat n) s)
  else None.

(** The largest size that the Go runtime allocates on 64-bit Linux
    ([maxAlloc], 2^48 bytes): no string or slice is longer. *)
Definition maxAlloc : Z := (2 ^ 48)%Z.

(** [n] copies of [s]. *)
Fixpoint repeat_string (s : string) (n : nat) : string :=
  match n with
  | O => EmptyString
  | S n' => String.append s (repeat_string s n')
  end.

(** [strings.Repeat(s, count)]: panics on a negative count, and when the
    result is too long: when [len(s) * count] overflows or is more than the
    runtime allocates ([makeslice: len out of range]).  An allocation within
    [maxAlloc] that the machine has no memory for ends the program as well;
    that is outside this model, and the theorems on rendering are for
    widths of at most [maxColumns]. *)
Definition strings_Repeat (s : string) (count : Z) : option string :=
  if (count <? 0)%Z then None
  else if (maxAlloc <? Z.of_nat (String.length s) * count)%Z then None
  else Some (repeat_string s (Z.to_nat count)).

(** [strings.Join(elems, sep)]. *)
Fixpoint strings_Join (elems : list string) (sep : string) : string :=
  match elems with
  | [] => EmptyString
  | [x] => x
  | x :: rest => String.append x (String.append sep (strings_Join rest sep))
  end.

(** [strings.Split(s, sep)] for a separator of one byte: the pieces between
    the separators, one more than there are separators. *)
Fixpoint strings_Split (s : string) (sep : ascii) : list string :=
  match s with
  | EmptyString => [EmptyString]
  | String c s' =>
      if Ascii.eqb c sep then EmptyString :: strings_Split s' sep
      else
        match strings_Split s' sep with
        | piece :: pieces => String c piece :: pieces
        | [] => [String c EmptyString]
        end
  end.

(** The six ASCII bytes for which [unicode.IsSpace] holds. *)
Definition ascii_space (c : ascii) : bool :=
  let n := nat_of_ascii c in
  ((9 <=? n) && (n <=? 13) || (n =? 32))%nat.

(** The number of bytes of the white space rune that [s] starts with, 0 if
    it starts with none.  In UTF-8 the runes of [unicode.IsSpace] are the six
    ASCII ones, U+0085 and U+00A0 (C2 85, C2 A0), U+1680 (E1 9A 80),
    U+2000..U+200A, U+2028, U+2029, U+202F (E2 80 80..8A, A8, A9, AF),
    U+205F (E2 81 9F) and U+3000 (E3 80 80). *)
Definition space_width (s : string) : nat :=
  match s with
  | EmptyString => 0
  | String c rest =>
      if ascii_space c then 1
      else
        let b1 := match rest with
                  | String d _ => nat_of_ascii d
                  | EmptyString => 0
                  end in
        let b2 := match rest with
                  | String _ (String e _) => nat_of_ascii e
                  | _ => 0
                  end in
        match nat_of_ascii c with
        | 194 => if ((b1 =? 133) || (b1 =? 160))%nat then 2 else 0
        | 225 => if ((b1 =? 154) && (b2 =? 128))%nat then 3 else 0
        | 226 =>
            if ((b1 =? 128)
                && ((128 <=? b2) && (b2 <=? 138)
                    || (b2 =? 168) || (b2 =? 169) || (b2 =? 175)))%nat
            then 3
            else if ((b1 =? 129) && (b2 =? 159))%nat then 3 else 0
        | 227 => if ((b1 =? 128) && (b2 =? 128))%nat then 3 else 0
        | _ => 0
        end
  end.

(** The field collected so far, if any. *)
Definition flush_field (cur : string) : list string :=
  match cur with
  | EmptyString => []
  | _ => [cur]
  end.

(** The scan of [strings.Fields]: [skip] counts the bytes still to pass of
    the white space rune under the cursor, [cur] is the field being
    collected. *)
Fixpoint fields_scan (s : string) (skip : nat) (cur : string) : list string :=
  match s with
  | EmptyString => flush_field cur
  | String c s' =>
      match skip with
      | S k => fields_scan s' k cur
      | O =>
          match space_width s with
          | O => fields_scan s' 0 (String.append cur (String c EmptyString))
          | S k => flush_field cur ++ fields_scan s' k EmptyString
          end
      end
  end.

(** [strings.Fields(s)]: the maximal runs of bytes between white space
    runes. *)
Definition strings_Fields (s : string) : list string :=
  fields_scan s 0 EmptyString.

(** [f] holds of every byte of [s]. *)
Fixpoint all_bytes (f : ascii -> bool) (s : string) : bool :=
  match s with
  | EmptyString => true
  | String c s' => f c && all_bytes f s'
  end.

(** No white space rune starts at any byte of [s]. *)
Fixpoint space_free (s : string) : bool :=
  match s with
  | EmptyString => true
  | String _ s' => (space_width s =? 0)%nat && space_free s'
  end.

(** A word: not empty, no ASCII white space in it. *)
Definition is_word (w : string) : Prop :=
  w <> EmptyString /\ all_bytes (fun c => negb (ascii_space c)) w = true.

(** A field as [strings.Fields] returns them: not empty and without any
    white space rune, ASCII or not. *)
Definition is_field (w : string) : Prop :=
  w <> EmptyString /\ space_free w = true.

(** The string ["\n"]. *)
Definition newline : string := String (ascii_of_nat 10) EmptyString.

(** 64-bit signed [int]: the value of an arithmetic result after wrap-around. *)
Definition wrap64 (z : Z) : Z := ((z + 2 ^ 63) mod 2 ^ 64 - 2 ^ 63)%Z.
Definition int_sub (a b : Z) : Z := wrap64 (a - b).

(** [float64(i)] for an [int]: conversion with rounding to nearest even. *)
Definition float64_of_int (i : Z) : float :=
  SF2Prim (binary_normalize 53 1024 i 0 false).

(** [int(f)] for a finite [float64] in range: truncation towards zero. *)
Definition int_of_float64 (f : float) : Z :=
  match Prim2SF f with
  | S754_finite sign m e =>
      let mag := match e with
                 | Z0 => Z.pos m
                 | Zpos p => (Z.pos m * 2 ^ Z.pos p)%Z
                 | Zneg p => (Z.pos m / 2 ^ Z.pos p)%Z
                 end in
      wrap64 (if sign then - mag else mag)
  | _ => 0%Z
  end.

(** A value returned together with an [error]: [(v, nil)] or [(_, err)]. *)
Definition error := string.

Inductive result (A : Type) : Type :=
| Ok (v : A)
| Err (e : error).
Arguments Ok {A} v.
Arguments Err {A} e.

End Go.

(** ** Package systemd (the collaborator's data) *)
Module systemd.

Record Unit := {
  Name : string;
  LoadState : string;
  ActiveState : string;
  SubState : string;
  Description : string;
}.

(** [parseUnits]: one unit for every line with at least five fields. *)
Definition parseLine (line : string) : option Unit :=
  match Go.strings_Fields line with
  | f0 :: f1 :: f2 :: f3 :: f4 :: rest =>
      Some {| Name := f0; LoadState := f1; ActiveState := f2; SubState := f3;
              Description := Go.strings_Join (f4 :: rest) " " |}
  | _ => None
  end.

Definition parseUnits (output : string) : list Unit :=
  omap parseLine (Go.strings_Split output (ascii_of_nat 10)).

(** [ListUnits], given what [cmd.Output()] returned. *)
Definition ListUnits (r : Go.result string) : Go.result (list Unit) :=
  match r with
  | Go.Err e => Go.Err e
  | Go.Ok output => Go.Ok (parseUnits output)
  end.

(** The three control actions passed to [performAction]. *)
Inductive Action := StartUnit | StopUnit | RestartUnit.

(** One running [StreamLogs(ctx, name, out)] goroutine. *)
Record Stream := {
  s_ctx : nat;
  s_name : string;
  s_out : nat;
}.

#[global] Instance Stream_eq_dec : EqDecision Stream.
Proof. solve_decision. Defined.

End systemd.

Module ui.
Import Go systemd.

Local Open Scope string_scope.

(** ** Key bindings ([keys]) *)

(** A [key.Binding], by the keys it is bound to (all bindings of [keys] are
    enabled). *)
Definition Binding := list string.

Definition keys_Up : Binding := ["up"; "k"].
Definition keys_Down : Binding := ["down"; "j"].
Definition keys_Left : Binding := ["left"; "h"].
Definition keys_Right : Binding := ["right"; "l"].
Definition keys_Enter : Binding := ["enter"].
Definition keys_Esc : Binding := ["esc"].
Definition keys_Tab : Binding := ["tab"].
Definition keys_Start : Binding := ["s"].
Definition keys_Stop : Binding := ["x"].
Definition keys_Restart : Binding := ["r"].
Definition keys_Config : Binding := ["c"].
Definition keys_Quit : Binding := ["q"; "ctrl+c"].

(** [key.Matches(msg, b)], with [k = msg.String()]. *)
Definition key_Matches (k : string) (b : Binding) : bool :=
  existsb (String.eqb k) b.

(** ** Model *)

Inductive Pane := PaneList | PaneContent.
Inductive Mode := ModeDashboard | ModeList | ModeLogs | ModeConfig.

Record item := { unit : Unit }.

Definition FilterValue (i : item) : string := Name (unit i).

Record statsMsg := {
  hostname : string;
  os : string;
  uptime : N;
  kernel : string;
}.


Definition ctxId := nat.
Definition chanId := nat.

(** Messages handled by [Update]; [tea.KeyMsg] is given by its [String()]. *)
Inductive Msg :=
| KeyMsg (k : string)
| WindowSizeMsg (Width Height : Z)
| UnitsMsg (units : list Unit)
| logLineMsg (line : string)
| configMsg (content : string)
| StatsMsg (s : statsMsg)
| actionResultMsg (err : option error) (action : string)
| TickMsg (id : nat)
| errMsg (e : error)
| OtherMsg (tag : nat)
| nilMsg.

(** The widgets of the bubbles library, as the Controller uses them. *)
Class Widgets := {
  WCmd : Type;
  list_Model : Type;
  list_New : list_Model;
  list_SetItems : list_Model -> list item -> list_Model;
  list_Items : list_Model -> list item;
  list_SelectedItem : list_Model -> option item;
  list_SettingFilter : list_Model -> bool;
  list_Update : list_Model -> Msg -> list_Model * option WCmd;
  list_SetSize : list_Model -> Z -> Z -> list_Model;
  list_SetTitle : list_Model -> string -> list_Model;
  list_Width : list_Model -> Z;
  list_Index : list_Model -> Z;
  viewport_Model : Type;
  viewport_New : viewport_Model;
  viewport_SetContent : viewport_Model -> string -> viewport_Model;
  viewport_GotoBottom : viewport_Model -> viewport_Model;
  viewport_GotoTop : viewport_Model -> viewport_Model;
  viewport_Update : viewport_Model -> Msg -> viewport_Model * option WCmd;
  viewport_SetWidth : viewport_Model -> Z -> viewport_Model;
  viewport_SetHeight : viewport_Model -> Z -> viewport_Model;
  spinner_Model : Type;
  spinner_New : spinner_Model;
  spinner_Update : spinner_Model -> Msg -> spinner_Model * option WCmd;
}.

(** What the Controller relies on from [list.Model]: the items are those of
    the last [SetItems]; no other operation replaces them. *)
Class WidgetLaws `{Widgets} : Prop := {
  Items_New : list_Items list_New = [];
  Items_SetItems : forall l xs, list_Items (list_SetItems l xs) = xs;
  Items_Update : forall l msg, list_Items (list_Update l msg).1 = list_Items l;
  Items_SetSize : forall l w h, list_Items (list_SetSize l w h) = list_Items l;
  Items_SetTitle : forall l t, list_Items (list_SetTitle l t) = list_Items l;
}.

(** [help.Model], of which only [Width] is written. *)
Record help_Model := { help_Width : Z }.

(** Commands returned by [Update] and [Init]. *)
Inductive Cmd `{Widgets} :=
| Cmd_fetchUnits
| Cmd_fetchStats
| Cmd_spinnerTick
| Cmd_waitForLogLine (sub : option chanId)
| Cmd_fetchConfig (name : string)
| Cmd_performAction (actionFunc : Action) (name actionName : string)
| Cmd_Quit
| Cmd_widget (c : WCmd).

(** The Go runtime as far as the Controller acts on it: the contexts and
    channels made so far, the cancelled contexts, the running [StreamLogs]
    goroutines. *)
Record Runtime := {
  next_ctx : nat;
  next_chan : nat;
  cancelled : gset nat;
  streams : list Stream;
}.

Definition cancel (c : ctxId) (rt : Runtime) : Runtime :=
  {| next_ctx := next_ctx rt; next_chan := next_chan rt;
     cancelled := {[c]} ∪ cancelled rt; streams := streams rt |}.

(** [if m.logCancel != nil { m.logCancel() }] *)
Definition call_logCancel (h : option ctxId) (rt : Runtime) : Runtime :=
  match h with
  | Some c => cancel c rt
  | None => rt
  end.

(** [context.WithCancel], [make(chan string)] and [go StreamLogs(...)]. *)
Definition spawn_stream (name : string) (rt : Runtime) : Runtime :=
  {| next_ctx := S (next_ctx rt); next_chan := S (next_chan rt);
     cancelled := cancelled rt;
     streams := streams rt ++
       [{| s_ctx := next_ctx rt; s_name := name; s_out := next_chan rt |}] |}.

(** The text environment: the Unicode case mappings of package [strings] and
    the lipgloss renderer ([lipgloss.Width] and the [Render] of the styles
    that [itemDelegate.Render] builds). *)
Class Terminal := {
  strings_ToLower : string -> string;
  strings_ToUpper : string -> string;
  lipgloss_Width : string -> Z;
  statusBadge_Render : string -> string -> string;
  titleStyle_Render : bool -> string -> string;
  descStyle_Render : bool -> string -> string;
  itemStyle_FrameSize : bool -> Z;
  itemStyle_Render : bool -> Z -> string -> string;
}.

Section Controller.
Context `{W : Widgets} `{T : Terminal}.

Record model := {
  list_ : list_Model;
  viewport : viewport_Model;
  help : help_Model;
  spinner : spinner_Model;
  activePane : Pane;
  viewMode : Mode;
  devMode : bool;
  width : Z;
  height : Z;
  allUnits : list Unit;
  logLines : list string;
  configContent : string;
  streamingUnit : string;
  stats : statsMsg;
  logCtx : option ctxId;
  logCancel : option ctxId;
  logChan : option chanId;
  err : option error;
  statusMessage : string;
}.

Definition set_list_ (v : list_Model) (m : model) : model :=
  {| list_ := v; viewport := viewport m; help := help m;
     spinner := spinner m; activePane := activePane m;
     viewMode := viewMode m; devMode := devMode m; width := width m;
     height := height m; allUnits := allUnits m; logLines := logLines m;
     configContent := configContent m; streamingUnit := streamingUnit m;
     stats := stats m; logCtx := logCtx m; logCancel := logCancel m;
     logChan := logChan m; err := err m; statusMessage := statusMessage m |}.

Definition set_viewport (v : viewport_Model) (m : model) : model :=
  {| list_ := list_ m; viewport := v; help := help m; spinner := spinner m;
     activePane := activePane m; viewMode := viewMode m;
     devMode := devMode m; width := width m; height := height m;
     allUnits := allUnits m; logLines := logLines m;
     configContent := configContent m; streamingUnit := streamingUnit m;
     stats := stats m; logCtx := logCtx m; logCancel := logCancel m;
     logChan := logChan m; err := err m; statusMessage := statusMessage m |}.

Definition set_help (v : help_Model) (m : model) : model :=
  {| list_ := list_ m; viewport := viewport m; help := v;
     spinner := spinner m; activePane := activePane m;
     viewMode := viewMode m; devMode := devMode m; width := width m;
     height := height m; allUnits := allUnits m; logLines := logLines m;
     configContent := configContent m; streamingUnit := streamingUnit m;
     stats := stats m; logCtx := logCtx m; logCancel := logCancel m;
     logChan := logChan m; err := err m; statusMessage := statusMessage m |}.

Definition set_spinner (v : spinner_Model) (m : model) : model :=
  {| list_ := list_ m; viewport := viewport m; help := help m; spinner := v;
     activePane := activePane m; viewMode := viewMode m;
     devMode := devMode m; width := width m; height := height m;
     allUnits := allUnits m; logLines := logLines m;
     configContent := configContent m; streamingUnit := streamingUnit m;
     stats := stats m; logCtx := logCtx m; logCancel := logCancel m;
     logChan := logChan m; err := err m; statusMessage := statusMessage m |}.

Definition set_activePane (v : Pane) (m : model) : model :=
  {| list_ := list_ m; viewport := viewport m; help := help m;
     spinner := spinner m; activePane := v; viewMode := viewMode m;
     devMode := devMode m; width := width m; height := height m;
     allUnits := allUnits m; logLines := logLines m;
     configContent := configContent m; streamingUnit := streamingUnit m;
     stats := stats m; logCtx := logCtx m; logCancel := logCancel m;
     logChan := logChan m; err := err m; statusMessage := statusMessage m |}.

Definition set_viewMode (v : Mode) (m : model) : model :=
  {| list_ := list_ m; viewport := viewport m; help := help m;
     spinner := spinner m; activePane := activePane m; viewMode := v;
     devMode := devMode m; width := width m; height := height m;
     allUnits := allUnits m; logLines := logLines m;
     configContent := configContent m; streamingUnit := streamingUnit m;
     stats := stats m; logCtx := logCtx m; logCancel := logCancel m;
     logChan := logChan m; err := err m; statusMessage := statusMessage m |}.

Definition set_devMode (v : bool) (m : model) : model :=
  {| list_ := list_ m; viewport := viewport m; help := help m;
     spinner := spinner m; activePane := activePane m;
     viewMode := viewMode m; devMode := v; width := width m;
     height := height m; allUnits := allUnits m; logLines := logLines m;
     configContent := configContent m; streamingUnit := streamingUnit m;
     stats := stats m; logCtx := logCtx m; logCancel := logCancel m;
     logChan := logChan m; err := err m; statusMessage := statusMessage m |}.

Definition set_width (v : Z) (m : model) : model :=
  {| list_ := list_ m; viewport := viewport m; help := help m;
     spinner := spinner m; activePane := activePane m;
     viewMode := viewMode m; devMode := devMode m; width := v;
     height := height m; allUnits := allUnits m; logLines := logLines m;
     configContent := configContent m; streamingUnit := streamingUnit m;
     stats := stats m; logCtx := logCtx m; logCancel := logCancel m;
     logChan := logChan m; err := err m; statusMessage := statusMessage m |}.

Definition set_height (v : Z) (m : model) : model :=
  {| list_ := list_ m; viewport := viewport m; help := help m;
     spinner := spinner m; activePane := activePane m;
     viewMode := viewMode m; devMode := devMode m; width := width m;
     height := v; allUnits := allUnits m; logLines := logLines m;
     configContent := configContent m; streamingUnit := streamingUnit m;
     stats := stats m; logCtx := logCtx m; logCancel := logCancel m;
     logChan := logChan m; err := err m; statusMessage := statusMessage m |}.

Definition set_allUnits (v : list Unit) (m : model) : model :=
  {| list_ := list_ m; viewport := viewport m; help := help m;
     spinner := spinner m; activePane := activePane m;
     viewMode := viewMode m; devMode := devMode m; width := width m;
     height := height m; allUnits := v; logLines := logLines m;
     configContent := configContent m; streamingUnit := streamingUnit m;
     stats := stats m; logCtx := logCtx m; logCancel := logCancel m;
     logChan := logChan m; err := err m; statusMessage := statusMessage m |}.

Definition set_logLines (v : list string) (m : model) : model :=
  {| list_ := list_ m; viewport := viewport m; help := help m;
     spinner := spinner m; activePane := activePane m;
     viewMode := viewMode m; devMode := devMode m; width := width m;
     height := height m; allUnits := allUnits m; logLines := v;
     configContent := configContent m; streamingUnit := streamingUnit m;
     stats := stats m; logCtx := logCtx m; logCancel := logCancel m;
     logChan := logChan m; err := err m; statusMessage := statusMessage m |}.

Definition set_configContent (v : string) (m : model) : model :=
  {| list_ := list_ m; viewport := viewport m; help := help m;
     spinner := spinner m; activePane := activePane m;
     viewMode := viewMode m; devMode := devMode m; width := width m;
     height := height m; allUnits := allUnits m; logLines := logLines m;
     configContent := v; streamingUnit := streamingUnit m; stats := stats m;
     logCtx := logCtx m; logCancel := logCancel m; logChan := logChan m;
     err := err m; statusMessage := statusMessage m |}.

Definition set_streamingUnit (v : string) (m : model) : model :=
  {| list_ := list_ m; viewport := viewport m; help := help m;
     spinner := spinner m; activePane := activePane m;
     viewMode := viewMode m; devMode := devMode m; width := width m;
     height := height m; allUnits := allUnits m; logLines := logLines m;
     configContent := configContent m; streamingUnit := v; stats := stats m;
     logCtx := logCtx m; logCancel := logCancel m; logChan := logChan m;
     err := err m; statusMessage := statusMessage m |}.

Definition set_stats (v : statsMsg) (m : model) : model :=
  {| list_ := list_ m; viewport := viewport m; help := help m;
     spinner := spinner m; activePane := activePane m;
     viewMode := viewMode m; devMode := devMode m; width := width m;
     height := height m; allUnits := allUnits m; logLines := logLines m;
     configContent := configContent m; streamingUnit := streamingUnit m;
     stats := v; logCtx := logCtx m; logCancel := logCancel m;
     logChan := logChan m; err := err m; statusMessage := statusMessage m |}.

Definition set_logCtx (v : option ctxId) (m : model) : model :=
  {| list_ := list_ m; viewport := viewport m; help := help m;
     spinner := spinner m; activePane := activePane m;
     viewMode := viewMode m; devMode := devMode m; width := width m;
     height := height m; allUnits := allUnits m; logLines := logLines m;
     configContent := configContent m; streamingUnit := streamingUnit m;
     stats := stats m; logCtx := v; logCancel := logCancel m;
     logChan := logChan m; err := err m; statusMessage := statusMessage m |}.

Definition set_logCancel (v : option ctxId) (m : model) : model :=
  {| list_ := list_ m; viewport := viewport m; help := help m;
     spinner := spinner m; activePane := activePane m;
     viewMode := viewMode m; devMode := devMode m; width := width m;
     height := height m; allUnits := allUnits m; logLines := logLines m;
     configContent := configContent m; streamingUnit := streamingUnit m;
     stats := stats m; logCtx := logCtx m; logCancel := v;
     logChan := logChan m; err := err m; statusMessage := statusMessage m |}.

Definition set_logChan (v : option chanId) (m : model) : model :=
  {| list_ := list_ m; viewport := viewport m; help := help m;
     spinner := spinner m; activePane := activePane m;
     viewMode := viewMode m; devMode := devMode m; width := width m;
     height := height m; allUnits := allUnits m; logLines := logLines m;
     configContent := configContent m; streamingUnit := streamingUnit m;
     stats := stats m; logCtx := logCtx m; logCancel := logCancel m;
     logChan := v; err := err m; statusMessage := statusMessage m |}.

Definition set_statusMessage (v : string) (m : model) : model :=
  {| list_ := list_ m; viewport := viewport m; help := help m;
     spinner := spinner m; activePane := activePane m;
     viewMode := viewMode m; devMode := devMode m; width := width m;
     height := height m; allUnits := allUnits m; logLines := logLines m;
     configContent := configContent m; streamingUnit := streamingUnit m;
     stats := stats m; logCtx := logCtx m; logCancel := logCancel m;
     logChan := logChan m; err := err m; statusMessage := v |}.

Definition Pane_eqb (a b : Pane) : bool :=
  match a, b with
  | PaneList, PaneList | PaneContent, PaneContent => true
  | _, _ => false
  end.

Definition Mode_eqb (a b : Mode) : bool :=
  match a, b with
  | ModeDashboard, ModeDashboard | ModeList, ModeList
  | ModeLogs, ModeLogs | ModeConfig, ModeConfig => true
  | _, _ => false
  end.

(** [NewModel]: all fields not listed in the source's literal are zero; the
    width of [help.New()] is not read anywhere and taken to be 0. *)
Definition NewModel : model :=
  {| list_ := list_New;
     viewport := viewport_New;
     help := {| help_Width := 0 |};
     spinner := spinner_New;
     activePane := PaneList;
     viewMode := ModeDashboard;
     devMode := true;
     width := 0; height := 0;
     allUnits := [];
     logLines := [];
     configContent := "";
     streamingUnit := "";
     stats := {| hostname := ""; os := ""; uptime := 0; kernel := "" |};
     logCtx := None; logCancel := None; logChan := None;
     err := None;
     statusMessage := "Ready" |}.

(** [tea.Batch(cmds...)]: the commands that are not nil. *)
Definition tea_Batch (cmds : list (option Cmd)) : list Cmd :=
  omap id cmds.

Definition wcmd (c : option WCmd) : option Cmd := Cmd_widget <$> c.

Definition Init (m : model) : list Cmd :=
  tea_Batch [Some Cmd_fetchUnits; Some Cmd_spinnerTick; Some Cmd_fetchStats].

(** *** updateListItems *)

Definition keywords : list string :=
  ["docker"; "mongo"; "postgres"; "mysql"; "redis"; "nginx"; "apache";
   "node"; "python"; "go"; "java"; "php"; "ruby"; "rust"; "app"; "api";
   "service"; "web"; "worker"; "db"].

(** The inner loop over [keywords]. *)
Definition isDev (u : Unit) : bool :=
  let name := strings_ToLower (Name u) in
  existsb (fun kw => strings_Contains name kw) keywords.

(** The loop over [m.allUnits] that builds [filtered]. *)
Fixpoint filtered (devMode : bool) (units : list Unit) : list item :=
  match units with
  | [] => []
  | u :: rest =>
      if devMode then
        if isDev u then {| unit := u |} :: filtered devMode rest
        else filtered devMode rest
      else {| unit := u |} :: filtered devMode rest
  end.

Definition updateListItems (m : model) : model :=
  let l := list_SetItems (list_ m) (filtered (devMode m) (allUnits m)) in
  let title := if devMode m then "Dev Services 🚀" else "System Units" in
  set_list_ (list_SetTitle l title) m.

(** *** startStreaming *)

Definition startStreaming (m : model) (name : string) (rt : Runtime)
  : model * Runtime :=
  if String.eqb (streamingUnit m) name then (m, rt)
  else
    let rt1 := call_logCancel (logCancel m) rt in
    let m1 := set_logLines [] m in
    let m2 := set_streamingUnit name m1 in
    let m3 := set_logCancel (Some (next_ctx rt1))
                (set_logCtx (Some (next_ctx rt1)) m2) in
    let m4 := set_logChan (Some (next_chan rt1)) m3 in
    (m4, spawn_stream name rt1).

(** *** Update *)

(** [int(float64(contentWidth) * 0.35)]; the literal is the binary64 value
    nearest to 0.35. *)
Definition sidebarWidthOf (contentWidth : Z) : Z :=
  int_of_float64
    (PrimFloat.mul (float64_of_int contentWidth) 0x1.6666666666666p-2%float).

(** [fmt.Sprintf("%v", b)] *)
Definition fmt_bool (b : bool) : string := if b then "true" else "false".

(** [if i, ok := m.list.SelectedItem().(item); ok { cmds = append(cmds, f(i)) }] *)
Definition with_selected (m : model) (f : item -> Cmd) : list (option Cmd) :=
  match list_SelectedItem (list_ m) with
  | Some i => [Some (f i)]
  | None => []
  end.

(** The [switch] on the key inside [case PaneList]. *)
Definition list_pane_key (m : model) (k : string) (rt : Runtime)
  : model * list (option Cmd) * Runtime :=
  if key_Matches k keys_Enter then
    let m1 := set_activePane PaneContent (set_viewMode ModeLogs m) in
    match list_SelectedItem (list_ m1) with
    | Some i =>
        let '(m2, rt2) := startStreaming m1 (Name (unit i)) rt in
        (m2, [Some (Cmd_waitForLogLine (logChan m2))], rt2)
    | None => (m1, [], rt)
    end
  else if key_Matches k keys_Config then
    let m1 := set_activePane PaneContent (set_viewMode ModeConfig m) in
    (m1, with_selected m1 (fun i => Cmd_fetchConfig (Name (unit i))), rt)
  else if key_Matches k keys_Start then
    (m, with_selected m
          (fun i => Cmd_performAction StartUnit (Name (unit i)) "Started"), rt)
  else if key_Matches k keys_Stop then
    (m, with_selected m
          (fun i => Cmd_performAction StopUnit (Name (unit i)) "Stopped"), rt)
  else if key_Matches k keys_Restart then
    (m, with_selected m
          (fun i => Cmd_performAction RestartUnit (Name (unit i)) "Restarted"),
     rt)
  else (m, [], rt).

Definition Update (m : model) (msg : Msg) (rt : Runtime)
  : model * list Cmd * Runtime :=
  match msg with
  | KeyMsg k =>
      if key_Matches k keys_Quit then
        (m, [Cmd_Quit], call_logCancel (logCancel m) rt)
      else if Mode_eqb (viewMode m) ModeDashboard then
        if existsb (String.eqb k) ["enter"; "space"; "tab"; "l"; "right"]
        then (set_activePane PaneList (set_viewMode ModeList m), [], rt)
        else (m, [], rt)
      else if key_Matches k keys_Tab then
        (if Pane_eqb (activePane m) PaneList
         then set_activePane PaneContent m
         else set_activePane PaneList m, [], rt)
      else if String.eqb k "d" then
        let m1 := updateListItems (set_devMode (negb (devMode m)) m) in
        (set_statusMessage ("Dev Mode: " ++ fmt_bool (devMode m1)) m1, [], rt)
      else if Pane_eqb (activePane m) PaneList
              && list_SettingFilter (list_ m) then
        let '(l, cmd) := list_Update (list_ m) msg in
        (set_list_ l m, tea_Batch [wcmd cmd], rt)
      else
        match activePane m with
        | PaneList =>
            let '(m1, cmds, rt1) := list_pane_key m k rt in
            let '(l, cmd) := list_Update (list_ m1) msg in
            (set_list_ l m1, tea_Batch (cmds ++ [wcmd cmd]), rt1)
        | PaneContent =>
            if key_Matches k keys_Esc then (set_activePane PaneList m, [], rt)
            else
              let '(vp, cmd) := viewport_Update (viewport m) msg in
              (set_viewport vp m, tea_Batch [wcmd cmd], rt)
        end
  | WindowSizeMsg w h =>
      let m1 := set_help {| help_Width := w |} (set_height h (set_width w m)) in
      let contentHeight := int_sub (height m1) 4 in
      let contentWidth := int_sub (width m1) 4 in
      let sidebarWidth := sidebarWidthOf contentWidth in
      let mainWidth := int_sub contentWidth sidebarWidth in
      let headerHeight := 2%Z in
      let m2 := set_list_ (list_SetSize (list_ m1) (int_sub sidebarWidth 2)
                  (int_sub (int_sub contentHeight 4) headerHeight)) m1 in
      let m3 := set_viewport
                  (viewport_SetHeight
                     (viewport_SetWidth (viewport m2) (int_sub mainWidth 2))
                     (int_sub contentHeight 4)) m2 in
      (m3, tea_Batch [], rt)
  | UnitsMsg units =>
      (updateListItems (set_allUnits units m), tea_Batch [None], rt)
  | logLineMsg line =>
      let m1 :=
        if String.eqb line "" then m
        else
          let m' := set_logLines (logLines m ++ [line]) m in
          let m'' :=
            if (1000 <? length (logLines m'))%nat
            then set_logLines
                   (drop (length (logLines m') - 1000) (logLines m')) m'
            else m' in
          if Mode_eqb (viewMode m'') ModeLogs
          then set_viewport
                 (viewport_GotoBottom
                    (viewport_SetContent (viewport m'')
                       (strings_Join (logLines m'') newline)))
                 m''
          else m'' in
      (m1, tea_Batch [Some (Cmd_waitForLogLine (logChan m1))], rt)
  | configMsg content =>
      let m1 := set_configContent content m in
      (if Mode_eqb (viewMode m1) ModeConfig
       then set_viewport
              (viewport_GotoTop
                 (viewport_SetContent (viewport m1) (configContent m1))) m1
       else m1, tea_Batch [], rt)
  | StatsMsg s => (set_stats s m, tea_Batch [], rt)
  | actionResultMsg e action =>
      match e with
      | Some e' => (set_statusMessage ("Error: " ++ e') m, tea_Batch [], rt)
      | None =>
          (set_statusMessage (action ++ " unit.") m,
           tea_Batch [Some Cmd_fetchUnits], rt)
      end
  | TickMsg _ =>
      let '(sp, cmd) := spinner_Update (spinner m) msg in
      (set_spinner sp m, tea_Batch [wcmd cmd], rt)
  | errMsg _ | OtherMsg _ | nilMsg => (m, tea_Batch [], rt)
  end.

(** *** The background commands, given what the collaborator returned *)

Definition fetchUnits (r : result (list Unit)) : Msg :=
  match r with
  | Err e => errMsg e
  | Ok units => UnitsMsg units
  end.



Definition performAction (r : option error) (actionName : string) : Msg :=
  actionResultMsg r actionName.

(** The outcome of the blocking receive [line, ok := <-sub]. *)
Inductive Recv := RecvLine (line : string) | RecvClosed.

Definition waitForLogLine (sub : option chanId) (r : chanId -> Recv) : Msg :=
  match sub with
  | None => nilMsg
  | Some c =>
      match r c with
      | RecvClosed => nilMsg
      | RecvLine line => logLineMsg line
      end
  end.

(** ** Presentation *)

(** [item.Title]: each later match overrides the icon. *)
Definition Title (i : item) : string :=
  let name := strings_ToLower (Name (unit i)) in
  let icon := "📦" in
  let icon := if strings_Contains name "docker" then "🐳" else icon in
  let icon := if strings_Contains name "mongo" then "🍃" else icon in
  let icon := if strings_Contains name "postgres" || strings_Contains name "psql"
              then "🐘" else icon in
  let icon := if strings_Contains name "mysql" || strings_Contains name "mariadb"
              then "🐬" else icon in
  let icon := if strings_Contains name "redis" then "🔺" else icon in
  let icon := if strings_Contains name "nginx" then "🌐" else icon in
  let icon := if strings_Contains name "apache" || strings_Contains name "httpd"
              then "🪶" else icon in
  let icon := if strings_Contains name "ssh" then "🔒" else icon in
  let icon := if strings_Contains name "node" || strings_Contains name "npm"
              then "🟢" else icon in
  let icon := if strings_Contains name "python" then "🐍" else icon in
  let icon := if strings_Contains name "go" then "🐹" else icon in
  icon ++ " " ++ Name (unit i).

(** [item.Description] *)
Definition item_Description (i : item) : string :=
  let status :=
    if String.eqb (ActiveState (unit i)) "active" then "🟢"
    else if String.eqb (ActiveState (unit i)) "failed" then "🔴"
    else "⚪" in
  status ++ " " ++ ActiveState (unit i) ++ " | " ++ Description (unit i).

(** The values of the locals of [itemDelegate.Render] when it returns, and
    the text it writes to [w]. *)
Record Row := {
  row_totalWidth : Z;
  row_innerWidth : Z;
  row_availableTitleWidth : Z;
  row_titleStr : string;
  row_gapSize : Z;
  row_descStr : string;
  row_out : string;
}.

(** [itemDelegate.Render(w, m, index, listItem)]; [None] is a panic. *)
Definition Render (m : list_Model) (index : Z) (i : item) : option Row :=
  let totalWidth := list_Width m in
  let totalWidth := if (totalWidth <=? 0)%Z then 40%Z else totalWidth in
  let activeState := ActiveState (unit i) in
  let statusBadge :=
    statusBadge_Render activeState (strings_ToUpper activeState) in
  let isSelected := (index =? list_Index m)%Z in
  let innerWidth := int_sub totalWidth (itemStyle_FrameSize isSelected) in
  let innerWidth := if (innerWidth <? 0)%Z then 0%Z else innerWidth in
  let badgeWidth := lipgloss_Width statusBadge in
  let availableTitleWidth := int_sub (int_sub innerWidth badgeWidth) 2 in
  let titleStr := Title i in
  titleStr ←
    (if (availableTitleWidth <? lipgloss_Width titleStr)%Z then
       if (3 <? availableTitleWidth)%Z then
         t ← slice_to titleStr (int_sub availableTitleWidth 3);
         Some (t ++ "...")
       else Some ""
     else Some titleStr);
  let left1 := titleStyle_Render isSelected titleStr in
  let gapSize := int_sub (int_sub innerWidth (lipgloss_Width left1)) badgeWidth in
  let gapSize := if (gapSize <? 0)%Z then 0%Z else gapSize in
  gap ← strings_Repeat " " gapSize;
  let line1 := left1 ++ gap ++ statusBadge in
  let descStr := Description (unit i) in
  descStr ←
    (if (innerWidth <? lipgloss_Width descStr)%Z then
       if (3 <? innerWidth)%Z then
         d ← slice_to descStr (int_sub innerWidth 3);
         Some (d ++ "...")
       else Some ""
     else Some descStr);
  let line2 := descStyle_Render isSelected descStr in
  let content := line1 ++ newline ++ line2 in
  Some {| row_totalWidth := totalWidth;
          row_innerWidth := innerWidth;
          row_availableTitleWidth := availableTitleWidth;
          row_titleStr := titleStr;
          row_gapSize := gapSize;
          row_descStr := descStr;
          row_out := itemStyle_Render isSelected innerWidth content |}.

(** The layout that [View] computes for the main screen. *)
Record Layout := {
  contentHeight : Z;
  contentWidth : Z;
  sidebarWidth : Z;
  mainWidth : Z;
  listContentWidth : Z;
  spacerWidth : Z;
  spacer : string;
  lineLen : Z;
  line : string;
}.

Inductive Screen :=
| Initializing
| Dashboard (units : nat)
| Main (lay : Layout).

(** The layout arithmetic of [View].  The styled strings whose widths enter
    it ([headerText], [statusText], the two tabs and [headerInfo]) are given;
    the result is the screen chosen and, for the main screen, the widths and
    the two strings built with [strings.Repeat]; [None] is a panic. *)
Definition View (m : model)
    (headerText statusText logsTab configTab headerInfo : string)
  : option Screen :=
  if (width m =? 0)%Z then Some Initializing
  else if Mode_eqb (viewMode m) ModeDashboard
  then Some (Dashboard (length (allUnits m)))
  else
    let contentHeight := int_sub (height m) 4 in
    let contentWidth := int_sub (width m) 4 in
    let sidebarWidth := sidebarWidthOf contentWidth in
    let mainWidth := int_sub contentWidth sidebarWidth in
    let listContentWidth := int_sub sidebarWidth 2 in
    let spacerWidth :=
      int_sub (int_sub listContentWidth (lipgloss_Width headerText))
        (lipgloss_Width statusText) in
    let spacerWidth := if (spacerWidth <? 0)%Z then 0%Z else spacerWidth in
    spacer ← strings_Repeat " " spacerWidth;
    let lineLen :=
      int_sub
        (int_sub
           (int_sub (int_sub mainWidth (lipgloss_Width logsTab))
              (lipgloss_Width configTab))
           (lipgloss_Width headerInfo)) 4 in
    let lineLen := if (lineLen <? 0)%Z then 0%Z else lineLen in
    line ← strings_Repeat "─" lineLen;
    Some (Main {| contentHeight := contentHeight;
                  contentWidth := contentWidth;
                  sidebarWidth := sidebarWidth;
                  mainWidth := mainWidth;
                  listContentWidth := listContentWidth;
                  spacerWidth := spacerWidth;
                  spacer := spacer;
                  lineLen := lineLen;
                  line := line |}).

(** ** The event loop and its goroutines

    The Bubble Tea loop calls [Update] on one message at a time and starts
    every returned command on a goroutine of its own; a command's message
    reaches [Update] at some later point.  For the one-shot commands that
    arrival is an [EvMsg] here.  A [waitForLogLine] command blocks in [<-sub]
    until a [StreamLogs] goroutine sends on that channel: [sys_waits] holds
    the channels of the blocked ones, and [sys_inbox] the lines that such a
    command has received and that [Update] has not been called on yet, each
    with the channel it was received on.  The channels are unbuffered and
    never closed by [StreamLogs]. *)

Record Sys := {
  sys_model : model;
  sys_rt : Runtime;
  sys_waits : list chanId;
  sys_inbox : list (chanId * string);
}.

Inductive Event :=
| EvMsg (msg : Msg)
| EvRecv (st : Stream) (line : string)
| EvLine (c : chanId) (line : string)
| EvStop (st : Stream).

Definition is_logLine (msg : Msg) : bool :=
  match msg with
  | logLineMsg _ => true
  | _ => false
  end.

Definition is_fetchUnits (c : Cmd) : bool :=
  match c with
  | Cmd_fetchUnits => true
  | _ => false
  end.

(** The channels on which the commands of one [Update] start to wait; a wait
    on a nil channel returns nil at once. *)
Definition new_waits (cmds : list Cmd) : list chanId :=
  omap (fun c => match c with
                 | Cmd_waitForLogLine sub => sub
                 | _ => None
                 end) cmds.

Definition deliver (s : Sys) (msg : Msg) : Sys :=
  let '(m, cmds, rt) := Update (sys_model s) msg (sys_rt s) in
  {| sys_model := m; sys_rt := rt;
     sys_waits := sys_waits s ++ new_waits cmds;
     sys_inbox := sys_inbox s |}.

Fixpoint remove_first {A} `{EqDecision A} (x : A) (l : list A) : list A :=
  match l with
  | [] => []
  | y :: l' => if bool_decide (y = x) then l' else y :: remove_first x l'
  end.

Definition stop_stream (st : Stream) (rt : Runtime) : Runtime :=
  {| next_ctx := next_ctx rt; next_chan := next_chan rt;
     cancelled := cancelled rt;
     streams := List.filter (fun x => negb (bool_decide (x = st)))
                  (streams rt) |}.

(** One step of the system.
    - [EvMsg]: a key, a resize or the result of a one-shot command arrives
      and [Update] is called on it.
    - [EvRecv st line]: the scanner of the running goroutine [st] has read
      [line] and its [select] takes the case [out <- text]; that case can
      proceed when a [waitForLogLine] is blocked on [s_out st], whether or not
      [ctx.Done()] can proceed as well (Go chooses among the ready cases).
      The receiving command returns [logLineMsg line], which is now on its
      way to [Update].
    - [EvLine c line]: a line received on channel [c] arrives and [Update] is
      called on [logLineMsg line].
    - [EvStop st]: the goroutine [st] returns (its [select] takes
      [<-ctx.Done()], or the scanner ends). *)
Definition sys_step (s : Sys) (ev : Event) : option Sys :=
  match ev with
  | EvMsg msg => if is_logLine msg then None else Some (deliver s msg)
  | EvRecv st line =>
      if bool_decide (st ∈ streams (sys_rt s))
         && bool_decide (s_out st ∈ sys_waits s)
      then Some {| sys_model := sys_model s; sys_rt := sys_rt s;
                   sys_waits := remove_first (s_out st) (sys_waits s);
                   sys_inbox := sys_inbox s ++ [(s_out st, line)] |}
      else None
  | EvLine c line =>
      if bool_decide ((c, line) ∈ sys_inbox s)
      then Some (deliver
                   {| sys_model := sys_model s; sys_rt := sys_rt s;
                      sys_waits := sys_waits s;
                      sys_inbox := remove_first (c, line) (sys_inbox s) |}
                   (logLineMsg line))
      else None
  | EvStop st =>
      if bool_decide (st ∈ streams (sys_rt s))
      then Some {| sys_model := sys_model s;
                   sys_rt := stop_stream st (sys_rt s);
                   sys_waits := sys_waits s;
                   sys_inbox := sys_inbox s |}
      else None
  end.

Fixpoint run (s : Sys) (evs : list Event) : option Sys :=
  match evs with
  | [] => Some s
  | ev :: evs' =>
      match sys_step s ev with
      | Some s' => run s' evs'
      | None => None
      end
  end.

Definition rt0 : Runtime :=
  {| next_ctx := 0; next_chan := 0; cancelled := ∅; streams := [] |}.

Definition sys0 : Sys :=
  {| sys_model := NewModel; sys_rt := rt0; sys_waits := []; sys_inbox := [] |}.

(** The number of lines received on channel [c] on which the events [evs]
    call [Update]. *)
Definition lines_from (c : chanId) (evs : list Event) : nat :=
  length (List.filter (fun ev => match ev with
                                 | EvLine c' _ => Nat.eqb c' c
                                 | _ => false
                                 end) evs).

(** The number of [waitForLogLine] commands blocked on channel [c]. *)
Definition waiting_on (c : chanId) (waits : list chanId) : nat :=
  length (List.filter (fun x => Nat.eqb x c) waits).

(** The number of lines received on channel [c] that are on their way. *)
Definition in_flight (c : chanId) (inbox : list (chanId * string)) : nat :=
  length (List.filter (fun p => Nat.eqb p.1 c) inbox).

(** What can still come from channel [c]. *)
Definition pending (c : chanId) (s : Sys) : nat :=
  waiting_on c (sys_waits s) + in_flight c (sys_inbox s).

(** [Update] folded over a sequence of messages. *)
Fixpoint fold_Update (m : model) (rt : Runtime) (msgs : list Msg)
  : model * Runtime :=
  match msgs with
  | [] => (m, rt)
  | msg :: msgs' =>
      let '(m', _, rt') := Update m msg rt in fold_Update m' rt' msgs'
  end.

End Controller.

(** ** A plain instance of the interfaces

    Text without styling on an ASCII terminal, and widgets that keep just
    what the Controller can observe.  The list keeps its cursor as an index
    into the items, as [list.Model] does: [SetItems] replaces the items and
    leaves the index where it is, [SelectedItem] is the item at the index, if
    any.  It is the instance at which the Controller is run on concrete
    inputs. *)
Module Plain.

Definition lower_ascii (c : ascii) : ascii :=
  let n := nat_of_ascii c in
  if (65 <=? n)%nat && (n <=? 90)%nat then ascii_of_nat (n + 32) else c.

Definition upper_ascii (c : ascii) : ascii :=
  let n := nat_of_ascii c in
  if (97 <=? n)%nat && (n <=? 122)%nat then ascii_of_nat (n - 32) else c.

Fixpoint map_bytes (f : ascii -> ascii) (s : string) : string :=
  match s with
  | EmptyString => EmptyString
  | String c s' => String (f c) (map_bytes f s')
  end.

Definition terminal : Terminal :=
  {| strings_ToLower := map_bytes lower_ascii;
     strings_ToUpper := map_bytes upper_ascii;
     lipgloss_Width := fun s => Z.of_nat (String.length s);
     statusBadge_Render := fun _ text => " " ++ text ++ " ";
     titleStyle_Render := fun _ s => s;
     descStyle_Render := fun _ s => s;
     itemStyle_FrameSize := fun _ => 2%Z;
     itemStyle_Render := fun _ _ content => "  " ++ content |}.

Record plist := {
  pl_items : list item;
  pl_cursor : nat;
  pl_title : string;
  pl_width : Z;
  pl_height : Z;
}.

Definition pl_move (l : plist) (c : nat) : plist :=
  {| pl_items := pl_items l; pl_cursor := c; pl_title := pl_title l;
     pl_width := pl_width l; pl_height := pl_height l |}.

Definition pl_Update (l : plist) (msg : Msg) : plist * option Empty_set :=
  match msg with
  | KeyMsg k =>
      if key_Matches k keys_Down then
        (if (S (pl_cursor l) <? length (pl_items l))%nat
         then pl_move l (S (pl_cursor l)) else l, None)
      else if key_Matches k keys_Up then (pl_move l (pred (pl_cursor l)), None)
      else (l, None)
  | _ => (l, None)
  end.

Record pviewport := {
  vp_content : string;
  vp_atBottom : bool;
  vp_width : Z;
  vp_height : Z;
}.

Definition widgets : Widgets :=
  {| WCmd := Empty_set;
     list_Model := plist;
     list_New := {| pl_items := []; pl_cursor := 0; pl_title := "Units";
                    pl_width := 0; pl_height := 0 |};
     list_SetItems := fun l xs =>
       {| pl_items := xs; pl_cursor := pl_cursor l; pl_title := pl_title l;
          pl_width := pl_width l; pl_height := pl_height l |};
     list_Items := pl_items;
     list_SelectedItem := fun l => pl_items l !! pl_cursor l;
     list_SettingFilter := fun _ => false;
     list_Update := pl_Update;
     list_SetSize := fun l w h =>
       {| pl_items := pl_items l; pl_cursor := pl_cursor l;
          pl_title := pl_title l; pl_width := w; pl_height := h |};
     list_SetTitle := fun l t =>
       {| pl_items := pl_items l; pl_cursor := pl_cursor l; pl_title := t;
          pl_width := pl_width l; pl_height := pl_height l |};
     list_Width := pl_width;
     list_Index := fun l => Z.of_nat (pl_cursor l);
     viewport_Model := pviewport;
     viewport_New := {| vp_content := ""; vp_atBottom := false;
                        vp_width := 0; vp_height := 0 |};
     viewport_SetContent := fun v c =>
       {| vp_content := c; vp_atBottom := vp_atBottom v;
          vp_width := vp_width v; vp_height := vp_height v |};
     viewport_GotoBottom := fun v =>
       {| vp_content := vp_content v; vp_atBottom := true;
          vp_width := vp_width v; vp_height := vp_height v |};
     viewport_GotoTop := fun v =>
       {| vp_content := vp_content v; vp_atBottom := false;
          vp_width := vp_width v; vp_height := vp_height v |};
     viewport_Update := fun v _ => (v, None);
     viewport_SetWidth := fun v w =>
       {| vp_content := vp_content v; vp_atBottom := vp_atBottom v;
          vp_width := w; vp_height := vp_height v |};
     viewport_SetHeight := fun v h =>
       {| vp_content := vp_content v; vp_atBottom := vp_atBottom v;
          vp_width := vp_width v; vp_height := h |};
     spinner_Model := nat;
     spinner_New := 0;
     spinner_Update := fun sp _ => (S sp, None) |}.

(** The plain widgets with a list that is taking filter input. *)
Definition filtering : Widgets :=
  {| WCmd := Empty_set;
     list_Model := plist;
     list_New := @list_New widgets;
     list_SetItems := @list_SetItems widgets;
     list_Items := pl_items;
     list_SelectedItem := @list_SelectedItem widgets;
     list_SettingFilter := fun _ => true;
     list_Update := pl_Update;
     list_SetSize := @list_SetSize widgets;
     list_SetTitle := @list_SetTitle widgets;
     list_Width := pl_width;
     list_Index := @list_Index widgets;
     viewport_Model := pviewport;
     viewport_New := @viewport_New widgets;
     viewport_SetContent := @viewport_SetContent widgets;
     viewport_GotoBottom := @viewport_GotoBottom widgets;
     viewport_GotoTop := @viewport_GotoTop widgets;
     viewport_Update := fun v _ => (v, None);
     viewport_SetWidth := @viewport_SetWidth widgets;
     viewport_SetHeight := @viewport_SetHeight widgets;
     spinner_Model := nat;
     spinner_New := 0;
     spinner_Update := fun sp _ => (S sp, None) |}.

(** Units for the examples. *)
Definition mkUnit (name state desc : string) : Unit :=
  {| Name := name; LoadState := "loaded"; ActiveState := state;
     SubState := "running"; Description := desc |}.

Definition docker : Unit :=
  mkUnit "docker.service" "active" "Docker Application Container Engine".
Definition nginx : Unit :=
  mkUnit "nginx.service" "active" "A high performance web server".
Definition cron : Unit :=
  mkUnit "cron.timer" "inactive" "Regular background jobs".

(** *** Runs of the system on the plain instance *)

#[local] Existing Instances widgets terminal.

(** The state reached from [s] by [evs] ([s] itself if a step is not
    enabled). *)
Definition after (s : Sys) (evs : list Event) : Sys :=
  default s (run s evs).

(** What is looked at in a state of the system: the streaming target, the
    buffer, the blocked waits, the lines on their way, whether contexts 0
    and 1 are cancelled, the running streams. *)
Definition observe (s : Sys)
  : string * list string * list chanId * list (chanId * string)
    * list bool * list Stream :=
  (streamingUnit (sys_model s), logLines (sys_model s), sys_waits s,
   sys_inbox s,
   [bool_decide (0 ∈ cancelled (sys_rt s));
    bool_decide (1 ∈ cancelled (sys_rt s))],
   streams (sys_rt s)).

(** The units arrive, the dashboard is left, logs of the first unit are
    opened. *)
Definition evs_open : list Event :=
  [EvMsg (UnitsMsg [Plain.docker; Plain.cron; Plain.nginx]);
   EvMsg (KeyMsg "enter");
   EvMsg (KeyMsg "enter")].

(** Back to the list, down to the second unit, logs of that unit. *)
Definition evs_switch : list Event :=
  [EvMsg (KeyMsg "tab"); EvMsg (KeyMsg "down"); EvMsg (KeyMsg "enter")].

Definition stream_docker : Stream :=
  {| s_ctx := 0; s_name := "docker.service"; s_out := 0 |}.

Definition stream_nginx : Stream :=
  {| s_ctx := 1; s_name := "nginx.service"; s_out := 1 |}.

Definition sys_docker : Sys := after sys0 evs_open.

Definition sys_nginx : Sys := after sys_docker evs_switch.

(** The docker goroutine sends a line after the switch, and the line
    arrives. *)
Definition evs_late : list Event :=
  [EvRecv stream_docker "late line of docker";
   EvLine 0 "late line of docker"].

(** The list after the units have arrived and the cursor has moved down to
    nginx. *)
Definition evs_select_nginx : list Event :=
  [EvMsg (UnitsMsg [Plain.docker; Plain.cron; Plain.nginx]);
   EvMsg (KeyMsg "enter");
   EvMsg (KeyMsg "down")].

Definition selected (s : Sys) : option string :=
  (fun i => Name (unit i)) <$> list_SelectedItem (list_ (sys_model s)).

End Plain.

(** ** Properties of the Controller *)

Section Properties.
Context `{W : Widgets} `{T : Terminal}.

(** *** Notions used in the statements *)

(** The last [k] elements of a slice: [l[len(l)-k:]], or [l] if it is
    shorter. *)
Definition lastn {A} (k : nat) (l : list A) : list A :=
  drop (length l - k) l.

(** A log line that [Update] keeps. *)
Definition nonempty (l : string) : bool := negb (String.eqb l "").

(** The list shows the ServiceCollection under the current dev filter. *)
Definition view_fresh (m : model) : Prop :=
  list_Items (list_ m) = filtered (devMode m) (allUnits m).

(** Channel [c] has been made and is not the channel of the model. *)
Definition superseded (c : chanId) (s : Sys) : Prop :=
  c < next_chan (sys_rt s) /\ logChan (sys_model s) <> Some c.

(** What a change of the streaming target brings with it. *)
Definition switched (m : model) (rt : Runtime) (m' : model) (rt' : Runtime)
  : Prop :=
  logLines m' = []
  /\ logChan m' = Some (next_chan rt)
  /\ next_chan rt < next_chan rt'
  /\ (forall ctx, logCancel m = Some ctx -> ctx ∈ cancelled rt').

(** No text is wider than it has bytes. *)
Definition Width_le_len : Prop :=
  forall s : string, (lipgloss_Width s <= Z.of_nat (String.length s))%Z.

(** How a text that must fit into [avail] columns is shown: as it is when it
    fits, cut to [avail - 3] bytes and followed by three dots when it does
    not fit and [avail] exceeds 3, as the empty text otherwise. *)
Definition truncated (text : string) (avail : Z) (shown : string) : Prop :=
  ((lipgloss_Width text <= avail)%Z -> shown = text)
  /\ ((avail < lipgloss_Width text)%Z -> (3 < avail)%Z ->
      shown = String.substring 0 (Z.to_nat (avail - 3)) text ++ "...")
  /\ ((avail < lipgloss_Width text)%Z -> (avail <= 3)%Z -> shown = "").

(** [Update] on a key is a chain of early returns.  [pane_outcome] lists the
    results of the [switch] inside [case PaneList], [key_outcome] those of
    the whole key branch; the lemmas [list_pane_key_outcome] and
    [Update_key_outcome] are the inversion principle that the proofs about
    key presses go through. *)
Inductive pane_outcome (m : model) (rt : Runtime)
  : model * list (option Cmd) * Runtime -> Prop :=
| po_stream (i : item) :
    list_SelectedItem (list_ m) = Some i ->
    let r := startStreaming
               (set_activePane PaneContent (set_viewMode ModeLogs m))
               (Name (unit i)) rt in
    pane_outcome m rt (r.1, [Some (Cmd_waitForLogLine (logChan r.1))], r.2)
| po_view (v : Mode) (cmds : list (option Cmd)) :
    new_waits (tea_Batch cmds) = [] ->
    pane_outcome m rt (set_activePane PaneContent (set_viewMode v m), cmds, rt)
| po_same (cmds : list (option Cmd)) :
    new_waits (tea_Batch cmds) = [] ->
    pane_outcome m rt (m, cmds, rt).

Inductive key_outcome (m : model) (k : string) (rt : Runtime)
  : model * list Cmd * Runtime -> Prop :=
| ko_quit :
    key_outcome m k rt (m, [Cmd_Quit], call_logCancel (logCancel m) rt)
| ko_none :
    key_outcome m k rt (m, [], rt)
| ko_mode (p : Pane) (v : Mode) :
    key_outcome m k rt (set_activePane p (set_viewMode v m), [], rt)
| ko_pane (p : Pane) :
    key_outcome m k rt (set_activePane p m, [], rt)
| ko_toggle :
    viewMode m <> ModeDashboard ->
    let m1 := updateListItems (set_devMode (negb (devMode m)) m) in
    key_outcome m k rt
      (set_statusMessage ("Dev Mode: " ++ fmt_bool (devMode m1)) m1, [], rt)
| ko_list (cmds : list Cmd) :
    new_waits cmds = [] ->
    key_outcome m k rt
      (set_list_ (list_Update (list_ m) (KeyMsg k)).1 m, cmds, rt)
| ko_viewport (vp : viewport_Model) (cmds : list Cmd) :
    new_waits cmds = [] ->
    key_outcome m k rt (set_viewport vp m, cmds, rt)
| ko_list_pane (m1 : model) (cmds1 : list (option Cmd)) (rt1 : Runtime)
    (cmds : list Cmd) :
    pane_outcome m rt (m1, cmds1, rt1) ->
    new_waits cmds = new_waits (tea_Batch cmds1) ->
    key_outcome m k rt
      (set_list_ (list_Update (list_ m1) (KeyMsg k)).1 m1, cmds, rt1).

(** [m'] has the fields of [m], but for the status message. *)
Definition same_but_status (m m' : model) : Prop :=
  list_ m' = list_ m /\ viewport m' = viewport m /\ help m' = help m
  /\ spinner m' = spinner m /\ activePane m' = activePane m
  /\ viewMode m' = viewMode m /\ devMode m' = devMode m
  /\ width m' = width m /\ height m' = height m
  /\ allUnits m' = allUnits m /\ logLines m' = logLines m
  /\ configContent m' = configContent m
  /\ streamingUnit m' = streamingUnit m /\ stats m' = stats m
  /\ logCtx m' = logCtx m /\ logCancel m' = logCancel m
  /\ logChan m' = logChan m /\ err m' = err m.




(** In the dashboard nothing has been selected or streamed yet. *)
Definition dashboard_idle (m : model) : Prop :=
  viewMode m = ModeDashboard ->
  activePane m = PaneList /\ streamingUnit m = "" /\ logChan m = None
  /\ logCancel m = None.

(** The subscription fields that [Update] leaves alone. *)
Definition same_sub (m m' : model) : Prop :=
  logCancel m' = logCancel m /\ logChan m' = logChan m
  /\ streamingUnit m' = streamingUnit m.

(** What one [Update] does to the subscription and to the runtime: nothing,
    the cancel of a quit, or the start of a stream for another unit. *)
Inductive sub_change (m : model) (rt : Runtime) (m' : model) (rt' : Runtime)
  : Prop :=
| sc_same : same_sub m m' -> rt' = rt -> sub_change m rt m' rt'
| sc_quit :
    same_sub m m' -> rt' = call_logCancel (logCancel m) rt ->
    sub_change m rt m' rt'
| sc_start (name : string) :
    logCancel m' = Some (next_ctx rt) ->
    logChan m' = Some (next_chan rt) ->
    streamingUnit m' = name ->
    rt' = spawn_stream name (call_logCancel (logCancel m) rt) ->
    sub_change m rt m' rt'.

(** Every running stream has a context of its own, made before, and is
    cancelled unless it is the stream of the model's subscription. *)
Definition live_inv (s : Sys) : Prop :=
  NoDup (s_ctx <$> streams (sys_rt s))
  /\ forall st : Stream,
       st ∈ streams (sys_rt s) ->
       s_ctx st < next_ctx (sys_rt s)
       /\ (s_ctx st ∈ cancelled (sys_rt s)
           \/ (logCancel (sys_model s) = Some (s_ctx st)
               /\ logChan (sys_model s) = Some (s_out st)
               /\ streamingUnit (sys_model s) = s_name st)).

(** Something is waiting for, or bringing, a line of the model's channel. *)
Definition fed (s : Sys) : Prop :=
  forall c : chanId, logChan (sys_model s) = Some c -> 1 <= pending c s.

(** The check of [sidebarWidthOf] at content width [n]: 35 percent rounded
    down or one less, and exactly that unless [n] is a multiple of 20. *)
Definition sidebar_ok (n : nat) : bool :=
  let cw := Z.of_nat n in
  let sw := sidebarWidthOf cw in
  ((cw * 7 / 20 - 1 <=? sw) && (sw <=? cw * 7 / 20)
   && implb (negb (cw mod 20 =? 0)) (sw =? cw * 7 / 20))%Z.

(** The control action and the label of the keys [s], [x] and [r]. *)
Definition action_of_key (k : string) : option (Action * string) :=
  if key_Matches k keys_Start then Some (StartUnit, "Started")
  else if key_Matches k keys_Stop then Some (StopUnit, "Stopped")
  else if key_Matches k keys_Restart then Some (RestartUnit, "Restarted")
  else None.

(** The commands that reach out to the collaborator or to a log channel. *)
Definition is_effect (c : Cmd) : bool :=
  match c with
  | Cmd_performAction _ _ _ | Cmd_fetchConfig _ | Cmd_waitForLogLine _ => true
  | _ => false
  end.

(** The results of the [switch] inside [case PaneList], each with the
    conditions under which it is taken. *)
Inductive pane_path (m : model) (k : string) (rt : Runtime)
  : model * list (option Cmd) * Runtime -> Prop :=
| pp_enter (i : item) :
    key_Matches k keys_Enter = true ->
    list_SelectedItem (list_ m) = Some i ->
    let r := startStreaming
               (set_activePane PaneContent (set_viewMode ModeLogs m))
               (Name (unit i)) rt in
    pane_path m k rt (r.1, [Some (Cmd_waitForLogLine (logChan r.1))], r.2)
| pp_enter_none :
    key_Matches k keys_Enter = true ->
    list_SelectedItem (list_ m) = None ->
    pane_path m k rt
      (set_activePane PaneContent (set_viewMode ModeLogs m), [], rt)
| pp_config (i : item) :
    key_Matches k keys_Enter = false ->
    key_Matches k keys_Config = true ->
    list_SelectedItem (list_ m) = Some i ->
    pane_path m k rt
      (set_activePane PaneContent (set_viewMode ModeConfig m),
       [Some (Cmd_fetchConfig (Name (unit i)))], rt)
| pp_config_none :
    key_Matches k keys_Enter = false ->
    key_Matches k keys_Config = true ->
    list_SelectedItem (list_ m) = None ->
    pane_path m k rt
      (set_activePane PaneContent (set_viewMode ModeConfig m), [], rt)
| pp_action (i : item) (act : Action) (label : string) :
    key_Matches k keys_Enter = false ->
    key_Matches k keys_Config = false ->
    action_of_key k = Some (act, label) ->
    list_SelectedItem (list_ m) = Some i ->
    pane_path m k rt
      (m, [Some (Cmd_performAction act (Name (unit i)) label)], rt)
| pp_idle :
    key_Matches k keys_Enter = false ->
    key_Matches k keys_Config = false ->
    pane_path m k rt (m, [], rt).

(** The results of [Update] on a key, each with the conditions under which
    it is taken. *)
Inductive key_path (m : model) (k : string) (rt : Runtime)
  : model * list Cmd * Runtime -> Prop :=
| kp_quit :
    key_Matches k keys_Quit = true ->
    key_path m k rt (m, [Cmd_Quit], call_logCancel (logCancel m) rt)
| kp_advance :
    key_Matches k keys_Quit = false ->
    viewMode m = ModeDashboard ->
    existsb (String.eqb k) ["enter"; "space"; "tab"; "l"; "right"] = true ->
    key_path m k rt (set_activePane PaneList (set_viewMode ModeList m), [], rt)
| kp_ignore :
    key_Matches k keys_Quit = false ->
    viewMode m = ModeDashboard ->
    existsb (String.eqb k) ["enter"; "space"; "tab"; "l"; "right"] = false ->
    key_path m k rt (m, [], rt)
| kp_tab :
    key_Matches k keys_Quit = false ->
    viewMode m <> ModeDashboard ->
    key_Matches k keys_Tab = true ->
    key_path m k rt
      (if Pane_eqb (activePane m) PaneList
       then set_activePane PaneContent m
       else set_activePane PaneList m, [], rt)
| kp_toggle :
    viewMode m <> ModeDashboard ->
    k = "d" ->
    let m1 := updateListItems (set_devMode (negb (devMode m)) m) in
    key_path m k rt
      (set_statusMessage ("Dev Mode: " ++ fmt_bool (devMode m1)) m1, [], rt)
| kp_filter :
    key_Matches k keys_Quit = false ->
    viewMode m <> ModeDashboard ->
    key_Matches k keys_Tab = false ->
    k <> "d" ->
    activePane m = PaneList ->
    list_SettingFilter (list_ m) = true ->
    key_path m k rt
      (set_list_ (list_Update (list_ m) (KeyMsg k)).1 m,
       tea_Batch [wcmd (list_Update (list_ m) (KeyMsg k)).2], rt)
| kp_list (m1 : model) (cmds1 : list (option Cmd)) (rt1 : Runtime) :
    key_Matches k keys_Quit = false ->
    viewMode m <> ModeDashboard ->
    key_Matches k keys_Tab = false ->
    k <> "d" ->
    activePane m = PaneList ->
    list_SettingFilter (list_ m) = false ->
    pane_path m k rt (m1, cmds1, rt1) ->
    key_path m k rt
      (set_list_ (list_Update (list_ m1) (KeyMsg k)).1 m1,
       tea_Batch (cmds1 ++ [wcmd (list_Update (list_ m1) (KeyMsg k)).2]),
       rt1)
| kp_esc :
    key_Matches k keys_Quit = false ->
    viewMode m <> ModeDashboard ->
    key_Matches k keys_Tab = false ->
    k <> "d" ->
    activePane m = PaneContent ->
    key_Matches k keys_Esc = true ->
    key_path m k rt (set_activePane PaneList m, [], rt)
| kp_viewport :
    key_Matches k keys_Quit = false ->
    viewMode m <> ModeDashboard ->
    key_Matches k keys_Tab = false ->
    k <> "d" ->
    activePane m = PaneContent ->
    key_Matches k keys_Esc = false ->
    key_path m k rt
      (set_viewport (viewport_Update (viewport m) (KeyMsg k)).1 m,
       tea_Batch [wcmd (viewport_Update (viewport m) (KeyMsg k)).2], rt).

(** Reduce the field reads of updated models. *)
Ltac fields :=
  cbn [list_ viewport help spinner activePane viewMode devMode width height
       allUnits logLines configContent streamingUnit stats logCtx logCancel
       logChan err statusMessage set_list_ set_viewport set_help
       set_spinner set_activePane set_viewMode set_devMode set_width
       set_height set_allUnits set_logLines set_configContent
       set_streamingUnit set_stats set_logCtx set_logCancel set_logChan
       set_statusMessage fst snd].

(** *** Control-action results *)

(** C4. After a control-action result without error the status message
    reads [action ++ " unit."] and the returned command set is exactly the
    service-list fetch; after a result with an error the status message
    reads ["Error: " ++ err] and no command is returned, so no fetch is
    issued.  Every other field of the model and the runtime stay as they
    were. *)
Theorem C4_action_result_refetch :
  forall (m : model) (rt : Runtime) (action : string),
    (let r := Update m (performAction None action) rt in
     statusMessage r.1.1 = action ++ " unit."
     /\ r.1.2 = [Cmd_fetchUnits]
     /\ r.2 = rt
     /\ same_but_status m r.1.1
     /\ r = (set_statusMessage (action ++ " unit.") m, [Cmd_fetchUnits], rt))
    /\ (forall e : error,
          let r := Update m (performAction (Some e) action) rt in
          statusMessage r.1.1 = "Error: " ++ e
          /\ r.1.2 = []
          /\ existsb is_fetchUnits r.1.2 = false
          /\ r.2 = rt
          /\ same_but_status m r.1.1
          /\ r = (set_statusMessage ("Error: " ++ e) m, [], rt)).
Proof.
  intros m rt action. split; [|intros e]; cbv zeta; unfold same_but_status;
    repeat split.
Qed.

(** *** Empty log lines and ended streams *)

(** C9. A log-line message with the empty payload leaves the whole model
    (buffer and viewport included) and the runtime as they are, and the one
    command returned waits for the next line on the current channel.  A wait
    on a nil channel or on a closed channel yields the nil message, and the
    nil message changes nothing and returns no command: no further wait is
    issued and no error is recorded. *)
Theorem C9_empty_line_dropped :
  (forall (m : model) (rt : Runtime),
      Update m (logLineMsg "") rt = (m, [Cmd_waitForLogLine (logChan m)], rt))
  /\ (forall r, waitForLogLine None r = nilMsg)
  /\ (forall c, waitForLogLine (Some c) (fun _ => RecvClosed) = nilMsg)
  /\ (forall (m : model) (rt : Runtime), Update m nilMsg rt = (m, [], rt)).
Proof. repeat split. Qed.

(** *** Fetch failures *)


(** *** Service-list results *)


Lemma filtered_all (units : list Unit) :
  filtered false units = Build_item <$> units.
Proof.
  induction units as [|u units IH]; simpl; [reflexivity|].
  rewrite IH; reflexivity.
Qed.

Lemma filtered_sublist (d : bool) (units : list Unit) :
  unit <$> filtered d units `sublist_of` units.
Proof.
  induction units as [|u units IH]; simpl; [constructor|].
  destruct d; [destruct (isDev u)|]; simpl;
    first [apply sublist_skip, IH | apply sublist_cons, IH].
Qed.

Lemma updateListItems_Items `{!WidgetLaws} (m : model) :
  list_Items (list_ (updateListItems m))
    = filtered (devMode m) (allUnits m).
Proof.
  unfold updateListItems. simpl.
  rewrite Items_SetTitle, Items_SetItems. reflexivity.
Qed.

Lemma Update_units (m : model) (units : list Unit) (rt : Runtime) :
  Update m (UnitsMsg units) rt
    = (updateListItems (set_allUnits units m), [], rt).
Proof. reflexivity. Qed.

(** C5 (amended). A service-list result replaces the whole ServiceCollection
    and recomputes the FilteredView from it under the current dev filter; the
    new list widget is the old one after [SetItems] with the FilteredView
    and the title assignment, so the Controller hands over the items only and
    keeps no selection of its own: what is selected afterwards is decided by
    the list widget from its own state and the new items.  No command is
    returned and the runtime is untouched. *)
Theorem C5_units_result_replaces_collection `{!WidgetLaws} :
  forall (m : model) (units : list Unit) (rt : Runtime),
    let r := Update m (fetchUnits (Ok units)) rt in
    allUnits r.1.1 = units
    /\ devMode r.1.1 = devMode m
    /\ list_Items (list_ r.1.1) = filtered (devMode m) units
    /\ list_ r.1.1
         = list_SetTitle
             (list_SetItems (list_ m) (filtered (devMode m) units))
             (if devMode m then "Dev Services 🚀" else "System Units")
    /\ r.1.2 = [] /\ r.2 = rt.
Proof.
  intros m units rt r. subst r. unfold fetchUnits.
  rewrite Update_units. cbn [fst snd].
  rewrite updateListItems_Items. repeat split.
Qed.


(** *** The log buffer *)

Lemma lastn_length {A} (k : nat) (l : list A) : length (lastn k l) <= k.
Proof. unfold lastn. rewrite length_drop. lia. Qed.

Lemma lastn_short {A} (k : nat) (l : list A) : length l <= k -> lastn k l = l.
Proof. intros H. unfold lastn. replace (length l - k) with 0 by lia. done. Qed.

Lemma lastn_app_lastn {A} (k : nat) (a b : list A) :
  lastn k (lastn k a ++ b) = lastn k (a ++ b).
Proof.
  destruct (decide (length a <= k)) as [Hle|Hgt].
  - rewrite (lastn_short k a) by done. done.
  - unfold lastn. rewrite !length_app, length_drop.
    set (d := length a - k).
    replace (length a - d + length b - k) with (length b) by lia.
    replace (length a + length b - k) with (d + length b) by lia.
    rewrite <- drop_drop.
    rewrite (drop_app_le a b d) by lia. done.
Qed.

Lemma Update_logLine (m : model) (line : string) (rt : Runtime) :
  line <> "" ->
  logLines (Update m (logLineMsg line) rt).1.1 = lastn 1000 (logLines m ++ [line]).
Proof.
  intros Hne. simpl.
  destruct (String.eqb_spec line "") as [->|_]; [done|]. simpl.
  unfold lastn.
  destruct (Nat.ltb_spec 1000 (length (logLines m ++ [line]))) as [Hlt|Hge];
    simpl; destruct (Mode_eqb (viewMode m) ModeLogs); simpl; try done;
    replace (length (logLines m ++ [line]) - 1000) with 0 by lia; done.
Qed.

Lemma startStreaming_logLines (m : model) (name : string) (rt : Runtime) :
  logLines (startStreaming m name rt).1 = logLines m
  \/ logLines (startStreaming m name rt).1 = [].
Proof.
  unfold startStreaming. destruct (String.eqb (streamingUnit m) name); auto.
Qed.

(** *** What a key press can do *)

Lemma new_waits_with_selected (m : model) (f : item -> Cmd) :
  (forall i, new_waits [f i] = []) ->
  new_waits (tea_Batch (with_selected m f)) = [].
Proof.
  intros Hf. unfold with_selected.
  destruct (list_SelectedItem (list_ m)) as [i|]; simpl; [apply Hf|done].
Qed.

Lemma list_pane_key_outcome (m : model) (k : string) (rt : Runtime) :
  pane_outcome m rt (list_pane_key m k rt).
Proof.
  unfold list_pane_key.
  destruct (key_Matches k keys_Enter).
  { simpl. destruct (list_SelectedItem (list_ m)) as [i|] eqn:Hsel.
    - pose proof (po_stream m rt i Hsel) as H. simpl in H.
      destruct (startStreaming _ _ rt) as [m2 rt2]. exact H.
    - apply po_view. done. }
  destruct (key_Matches k keys_Config).
  { apply po_view. apply new_waits_with_selected. done. }
  destruct (key_Matches k keys_Start).
  { apply po_same. apply new_waits_with_selected. done. }
  destruct (key_Matches k keys_Stop).
  { apply po_same. apply new_waits_with_selected. done. }
  destruct (key_Matches k keys_Restart).
  { apply po_same. apply new_waits_with_selected. done. }
  apply po_same. done.
Qed.

Lemma new_waits_wcmd (c : option WCmd) : new_waits (tea_Batch [wcmd c]) = [].
Proof. destruct c; done. Qed.

Lemma new_waits_app_wcmd (cmds : list (option Cmd)) (c : option WCmd) :
  new_waits (tea_Batch (cmds ++ [wcmd c])) = new_waits (tea_Batch cmds).
Proof.
  unfold tea_Batch, new_waits. rewrite !omap_app.
  change (omap id [wcmd c]) with (tea_Batch [wcmd c]).
  destruct c; simpl; apply app_nil_r.
Qed.

Lemma Update_key_outcome (m : model) (k : string) (rt : Runtime) :
  key_outcome m k rt (Update m (KeyMsg k) rt).
Proof.
  unfold Update.
  destruct (key_Matches k keys_Quit); [apply ko_quit|].
  destruct (Mode_eqb (viewMode m) ModeDashboard) eqn:Hdash.
  { destruct (existsb _ _); [apply ko_mode | apply ko_none]. }
  destruct (key_Matches k keys_Tab).
  { destruct (Pane_eqb (activePane m) PaneList); apply ko_pane. }
  destruct (String.eqb k "d").
  { apply ko_toggle. intros Heq. rewrite Heq in Hdash. discriminate. }
  destruct (Pane_eqb (activePane m) PaneList && list_SettingFilter (list_ m)).
  { destruct (list_Update (list_ m) (KeyMsg k)) as [l cmd] eqn:Hl.
    change l with (l, cmd).1. rewrite <- Hl.
    apply ko_list, new_waits_wcmd. }
  destruct (activePane m).
  - pose proof (list_pane_key_outcome m k rt) as Hp.
    destruct (list_pane_key m k rt) as [[m1 cmds1] rt1].
    destruct (list_Update (list_ m1) (KeyMsg k)) as [l cmd] eqn:Hl.
    change l with (l, cmd).1. rewrite <- Hl.
    eapply ko_list_pane; [exact Hp|]. apply new_waits_app_wcmd.
  - destruct (key_Matches k keys_Esc); [apply ko_pane|].
    destruct (viewport_Update (viewport m) (KeyMsg k)) as [vp cmd].
    apply ko_viewport, new_waits_wcmd.
Qed.

Lemma pane_outcome_logLines m rt m1 cmds1 rt1 :
  pane_outcome m rt (m1, cmds1, rt1) ->
  logLines m1 = logLines m \/ logLines m1 = [].
Proof.
  inversion 1; subst; simpl; auto.
  subst r.
  edestruct startStreaming_logLines as [Hs|Hs]; [left|right]; exact Hs.
Qed.

Lemma key_outcome_logLines m k rt r :
  key_outcome m k rt r -> logLines r.1.1 = logLines m \/ logLines r.1.1 = [].
Proof.
  destruct 1; simpl; auto.
  eapply pane_outcome_logLines; eauto.
Qed.

Lemma Update_logLines_bound (m : model) (msg : Msg) (rt : Runtime) :
  length (logLines m) <= 1000 ->
  length (logLines (Update m msg rt).1.1) <= 1000.
Proof.
  intros Hm. destruct msg as [k|w h|units|line|content|s|e action|id|e|tag|].
  - destruct (key_outcome_logLines _ _ _ _ (Update_key_outcome m k rt))
      as [->| ->]; simpl; lia.
  - simpl. done.
  - simpl. done.
  - destruct (String.eqb_spec line "") as [->|Hne].
    + simpl. done.
    + rewrite Update_logLine by done. apply lastn_length.
  - simpl. destruct (Mode_eqb (viewMode m) ModeConfig); done.
  - simpl. done.
  - simpl. destruct e; done.
  - simpl. destruct (spinner_Update (spinner m) (TickMsg id)); done.
  - done.
  - done.
  - done.
Qed.

Lemma fold_Update_cons (m : model) (rt : Runtime) (msg : Msg) (msgs : list Msg) :
  fold_Update m rt (msg :: msgs)
    = fold_Update (Update m msg rt).1.1 (Update m msg rt).2 msgs.
Proof. simpl. destruct (Update m msg rt) as [[m' cmds] rt']. done. Qed.

Lemma fold_Update_logLines_bound (msgs : list Msg) :
  forall (m : model) (rt : Runtime),
    length (logLines m) <= 1000 ->
    length (logLines (fold_Update m rt msgs).1) <= 1000.
Proof.
  induction msgs as [|msg msgs IH]; intros m rt Hm; [done|].
  rewrite fold_Update_cons. apply IH, Update_logLines_bound, Hm.
Qed.

Lemma Update_logLine_empty (m : model) (rt : Runtime) :
  Update m (logLineMsg "") rt = (m, [Cmd_waitForLogLine (logChan m)], rt).
Proof. reflexivity. Qed.

Lemma fold_Update_lines (lines : list string) :
  forall (m : model) (rt : Runtime),
    length (logLines m) <= 1000 ->
    logLines (fold_Update m rt (logLineMsg <$> lines)).1
      = lastn 1000 (logLines m ++ List.filter nonempty lines).
Proof.
  induction lines as [|l lines IH]; intros m rt Hm.
  - simpl. rewrite app_nil_r, lastn_short; done.
  - rewrite fmap_cons, fold_Update_cons.
    destruct (String.eqb_spec l "") as [->|Hne].
    + rewrite Update_logLine_empty. cbn [fst snd]. rewrite IH by exact Hm. done.
    + rewrite IH by apply Update_logLines_bound, Hm.
      rewrite Update_logLine by exact Hne.
      rewrite lastn_app_lastn, <- app_assoc.
      cbn [List.filter]. unfold nonempty at 2.
      destruct (String.eqb_spec l ""); [done|]. done.
Qed.

(** C2. Whatever messages are delivered from the initial state on, the
    buffer never holds more than 1000 lines; and delivering log lines to a
    state whose buffer is within the cap leaves in the buffer the last 1000
    of the old lines followed by the delivered non-empty ones, in their
    order: the lines dropped are the oldest ones.  So once more than 1000
    lines of a stream have been appended, its first line is gone. *)
Theorem C2_log_buffer_cap_fifo :
  (forall (rt : Runtime) (msgs : list Msg),
      length (logLines (fold_Update NewModel rt msgs).1) <= 1000)
  /\ (forall (m : model) (rt : Runtime) (lines : list string),
        length (logLines m) <= 1000 ->
        let all := (logLines m ++ List.filter nonempty lines)%list in
        logLines (fold_Update m rt (logLineMsg <$> lines)).1
          = drop (length all - 1000) all)
  /\ (forall (m : model) (rt : Runtime) (first : string) (rest : list string),
        logLines m = [] ->
        forallb nonempty (first :: rest) = true ->
        length rest = 1000 ->
        logLines (fold_Update m rt (logLineMsg <$> first :: rest)).1 = rest).
Proof.
  split; [|split].
  - intros rt msgs. apply fold_Update_logLines_bound. simpl. lia.
  - intros m rt lines Hm all. apply fold_Update_lines. exact Hm.
  - intros m rt first rest Hm Hne Hlen.
    rewrite fold_Update_lines by (rewrite Hm; simpl; lia).
    rewrite Hm, app_nil_l.
    rewrite (forallb_filter_id nonempty (first :: rest) Hne).
    unfold lastn. cbn [length]. rewrite Hlen. done.
Qed.

(** *** The FilteredView *)

Lemma startStreaming_frame (m : model) (name : string) (rt : Runtime) :
  let m' := (startStreaming m name rt).1 in
  list_ m' = list_ m /\ devMode m' = devMode m /\ allUnits m' = allUnits m.
Proof.
  unfold startStreaming. destruct (String.eqb (streamingUnit m) name); done.
Qed.

Lemma pane_outcome_frame m rt m1 cmds1 rt1 :
  pane_outcome m rt (m1, cmds1, rt1) ->
  list_ m1 = list_ m /\ devMode m1 = devMode m /\ allUnits m1 = allUnits m.
Proof.
  inversion 1; subst; simpl; auto.
  subst r. edestruct startStreaming_frame as (Hl & Hd & Hu).
  rewrite Hl, Hd, Hu. done.
Qed.

Lemma key_outcome_view_fresh `{!WidgetLaws} m k rt r :
  key_outcome m k rt r -> view_fresh m -> view_fresh r.1.1.
Proof.
  unfold view_fresh. destruct 1; cbn [fst]; intros Hm; try done.
  - subst m1. cbn [list_ devMode allUnits set_statusMessage].
    rewrite updateListItems_Items. done.
  - fields. rewrite Items_Update. done.
  - fields. rewrite Items_Update.
    edestruct pane_outcome_frame as (Hl & Hd & Hu); [eassumption|].
    fields. rewrite Hl, Hd, Hu. done.
Qed.

Lemma Update_view_fresh `{!WidgetLaws} (m : model) (msg : Msg) (rt : Runtime) :
  view_fresh m -> view_fresh (Update m msg rt).1.1.
Proof.
  intros Hm. destruct msg as [k|w h|units|line|content|s|e action|id|e|tag|].
  - eapply key_outcome_view_fresh; [apply Update_key_outcome|done].
  - unfold view_fresh. simpl. rewrite Items_SetSize. done.
  - rewrite Update_units. unfold view_fresh. cbn [fst].
    rewrite updateListItems_Items. done.
  - unfold view_fresh in *. simpl.
    destruct (String.eqb line ""); [done|].
    destruct (1000 <? _)%nat; simpl;
      destruct (Mode_eqb (viewMode m) ModeLogs); done.
  - unfold view_fresh in *. simpl.
    destruct (Mode_eqb (viewMode m) ModeConfig); done.
  - done.
  - destruct e; done.
  - unfold view_fresh in *. simpl.
    destruct (spinner_Update (spinner m) (TickMsg id)); done.
  - done.
  - done.
  - done.
Qed.

Lemma fold_Update_view_fresh `{!WidgetLaws} (msgs : list Msg) :
  forall (m : model) (rt : Runtime),
    view_fresh m -> view_fresh (fold_Update m rt msgs).1.
Proof.
  induction msgs as [|msg msgs IH]; intros m rt Hm; [done|].
  rewrite fold_Update_cons. apply IH, Update_view_fresh, Hm.
Qed.

Lemma Update_toggle (m : model) (rt : Runtime) :
  viewMode m <> ModeDashboard ->
  Update m (KeyMsg "d") rt
    = (let m1 := updateListItems (set_devMode (negb (devMode m)) m) in
       set_statusMessage ("Dev Mode: " ++ fmt_bool (devMode m1)) m1, [], rt).
Proof.
  intros Hv. unfold Update. cbn [key_Matches keys_Quit keys_Tab existsb].
  destruct (viewMode m); done.
Qed.

(** C6. A service-list result and a dev-filter toggle both leave in the list
    the new ServiceCollection (resp. the unchanged one) filtered under the
    dev filter as it is after the transition; and in every state reached
    from the initial one, by any messages, the list holds the last-fetched
    ServiceCollection filtered under the current dev filter, which is a
    subsequence of that collection, in the same relative order. *)
Theorem C6_filtered_view_subsequence `{!WidgetLaws} :
  (forall (m : model) (units : list Unit) (rt : Runtime),
      let m' := (Update m (UnitsMsg units) rt).1.1 in
      allUnits m' = units /\ devMode m' = devMode m /\ view_fresh m')
  /\ (forall (m : model) (rt : Runtime),
        viewMode m <> ModeDashboard ->
        let m' := (Update m (KeyMsg "d") rt).1.1 in
        allUnits m' = allUnits m /\ devMode m' = negb (devMode m)
        /\ view_fresh m')
  /\ (forall (rt : Runtime) (msgs : list Msg),
        let m := (fold_Update NewModel rt msgs).1 in
        view_fresh m
        /\ unit <$> list_Items (list_ m) `sublist_of` allUnits m).
Proof.
  split; [|split].
  - intros m units rt m'. subst m'. rewrite Update_units. cbn [fst].
    unfold view_fresh. rewrite updateListItems_Items. done.
  - intros m rt Hv m'. subst m'. rewrite Update_toggle by done. cbn [fst].
    unfold view_fresh. simpl.
    rewrite Items_SetTitle, Items_SetItems. done.
  - intros rt msgs m.
    assert (Hf : view_fresh m).
    { apply fold_Update_view_fresh. unfold view_fresh. simpl. apply Items_New. }
    split; [exact Hf|]. rewrite Hf. apply filtered_sublist.
Qed.

(** *** Restarting the active subscription *)

Lemma startStreaming_same (m : model) (name : string) (rt : Runtime) :
  streamingUnit m = name -> startStreaming m name rt = (m, rt).
Proof.
  intros <-. unfold startStreaming. rewrite String.eqb_refl. done.
Qed.

(** C7. [startStreaming] with the name that is already the streaming target
    returns the model and the runtime as they are.  And when the list pane is
    active outside the dashboard, the list is not taking filter input and the
    selected unit is the streaming target, pressing Enter leaves the buffer,
    the context, the cancellation handle, the channel, the target and the
    runtime (no cancel, no new stream) unchanged; the one wait command
    returned is on that same channel. *)
Theorem C7_same_target_is_noop :
  (forall (m : model) (name : string) (rt : Runtime),
      streamingUnit m = name -> startStreaming m name rt = (m, rt))
  /\ (forall (m : model) (rt : Runtime) (i : item),
        viewMode m <> ModeDashboard ->
        activePane m = PaneList ->
        list_SettingFilter (list_ m) = false ->
        list_SelectedItem (list_ m) = Some i ->
        Name (unit i) = streamingUnit m ->
        let r := Update m (KeyMsg "enter") rt in
        logLines r.1.1 = logLines m
        /\ logCtx r.1.1 = logCtx m
        /\ logCancel r.1.1 = logCancel m
        /\ logChan r.1.1 = logChan m
        /\ streamingUnit r.1.1 = streamingUnit m
        /\ r.2 = rt
        /\ new_waits r.1.2 = new_waits [Cmd_waitForLogLine (logChan m)]).
Proof.
  split; [apply startStreaming_same|].
  intros m rt i Hv Hp Hf Hsel Hname r. subst r.
  unfold Update. cbn [key_Matches keys_Quit keys_Tab existsb].
  assert (Hd : Mode_eqb (viewMode m) ModeDashboard = false)
    by (destruct (viewMode m); done).
  rewrite Hd, Hp, Hf. cbn [String.eqb Ascii.eqb Bool.eqb Pane_eqb andb orb].
  unfold list_pane_key. cbn [key_Matches keys_Enter existsb String.eqb Ascii.eqb Bool.eqb orb].
  cbn [list_ set_activePane set_viewMode]. rewrite Hsel.
  rewrite startStreaming_same by (symmetry; exact Hname).
  destruct (list_Update _ _) as [l cmd].
  cbn [fst snd]. rewrite new_waits_app_wcmd. done.
Qed.

(** *** Superseded subscriptions *)

Lemma startStreaming_chan (m : model) (name : string) (rt : Runtime) :
  let r := startStreaming m name rt in
  next_chan rt <= next_chan r.2
  /\ (logChan r.1 = logChan m \/ logChan r.1 = Some (next_chan rt)).
Proof.
  unfold startStreaming.
  destruct (String.eqb (streamingUnit m) name); simpl; [auto|].
  destruct (logCancel m); simpl; auto.
Qed.

Lemma pane_outcome_chan m rt m1 cmds1 rt1 :
  pane_outcome m rt (m1, cmds1, rt1) ->
  next_chan rt <= next_chan rt1
  /\ (logChan m1 = logChan m \/ logChan m1 = Some (next_chan rt))
  /\ Forall (fun c => logChan m1 = Some c) (new_waits (tea_Batch cmds1)).
Proof.
  inversion 1 as [i Hsel r Heq|v cmds Hw Heq|cmds Hw Heq]; subst.
  - subst r. edestruct startStreaming_chan as [Hn Hc].
    split; [exact Hn|]. split; [exact Hc|].
    simpl. destruct (logChan _) as [c|]; simpl; auto.
  - rewrite Hw. simpl. auto.
  - rewrite Hw. auto.
Qed.

Lemma key_outcome_chan m k rt r :
  key_outcome m k rt r ->
  next_chan rt <= next_chan r.2
  /\ (logChan r.1.1 = logChan m \/ logChan r.1.1 = Some (next_chan rt))
  /\ Forall (fun c => logChan r.1.1 = Some c) (new_waits r.1.2).
Proof.
  destruct 1 as [| | | | | cmds Hw|vp cmds Hw|m1 cmds1 rt1 cmds Hp Hw];
    cbn [fst snd]; try rewrite Hw; fields;
    try (split; [|split]; solve [auto | destruct (logCancel m); simpl; auto]).
  eapply pane_outcome_chan, Hp.
Qed.

Lemma Update_chan (m : model) (msg : Msg) (rt : Runtime) :
  let r := Update m msg rt in
  next_chan rt <= next_chan r.2
  /\ (logChan r.1.1 = logChan m \/ logChan r.1.1 = Some (next_chan rt))
  /\ Forall (fun c => logChan r.1.1 = Some c) (new_waits r.1.2).
Proof.
  destruct msg as [k|w h|units|line|content|s|e action|id|e|tag|].
  - apply (key_outcome_chan m k rt), Update_key_outcome.
  - simpl. auto.
  - simpl. auto.
  - simpl. split; [lia|].
    destruct (String.eqb line "").
    + destruct (logChan m); simpl; auto.
    + destruct (1000 <? _)%nat; simpl;
        destruct (Mode_eqb (viewMode m) ModeLogs); simpl;
        destruct (logChan m); simpl; auto.
  - simpl. destruct (Mode_eqb (viewMode m) ModeConfig); simpl; auto.
  - simpl. auto.
  - simpl. destruct e; simpl; auto.
  - simpl. destruct (spinner_Update (spinner m) (TickMsg id)) as [sp [c|]];
      simpl; auto.
  - simpl. auto.
  - simpl. auto.
  - simpl. auto.
Qed.

Lemma startStreaming_switched (m : model) (name : string) (rt : Runtime) :
  let r := startStreaming m name rt in
  streamingUnit r.1 = streamingUnit m \/ switched m rt r.1 r.2.
Proof.
  unfold startStreaming.
  destruct (String.eqb (streamingUnit m) name); [left; done|right].
  unfold switched. fields.
  assert (Hn : next_chan (call_logCancel (logCancel m) rt) = next_chan rt)
    by (destruct (logCancel m); done).
  rewrite Hn. do 2 (split; [done|]). split.
  - cbn [next_chan spawn_stream]. rewrite Hn. lia.
  - intros ctx ->. simpl. set_solver.
Qed.

Lemma pane_outcome_switched m rt m1 cmds1 rt1 :
  pane_outcome m rt (m1, cmds1, rt1) ->
  streamingUnit m1 = streamingUnit m \/ switched m rt m1 rt1.
Proof.
  inversion 1 as [i Hsel r Heq|v cmds Hw Heq|cmds Hw Heq]; subst; auto.
  subst r. apply (startStreaming_switched
    (set_activePane PaneContent (set_viewMode ModeLogs m))).
Qed.

Lemma Update_switched (m : model) (msg : Msg) (rt : Runtime) :
  let r := Update m msg rt in
  streamingUnit r.1.1 = streamingUnit m \/ switched m rt r.1.1 r.2.
Proof.
  destruct msg as [k|w h|units|line|content|s|e action|id|e|tag|];
    try (left; reflexivity).
  - destruct (Update_key_outcome m k rt)
      as [| | | | | cmds Hw|vp cmds Hw|m1 cmds1 rt1 cmds Hp Hw];
      try (left; reflexivity).
    cbn [fst snd]. unfold switched. fields.
    apply (pane_outcome_switched _ _ _ _ _ Hp).
  - left. simpl. destruct (String.eqb line ""); [done|].
    destruct (1000 <? _)%nat; simpl;
      destruct (Mode_eqb (viewMode m) ModeLogs); done.
  - left. simpl. destruct (Mode_eqb (viewMode m) ModeConfig); done.
  - left. simpl. destruct e; done.
  - left. simpl. destruct (spinner_Update (spinner m) (TickMsg id)); done.
Qed.

Lemma waiting_on_app (c : chanId) (a b : list chanId) :
  waiting_on c (a ++ b) = waiting_on c a + waiting_on c b.
Proof. unfold waiting_on. rewrite List.filter_app, length_app. done. Qed.

Lemma waiting_on_other (c : chanId) (l : list chanId) :
  Forall (fun x => x <> c) l -> waiting_on c l = 0.
Proof.
  unfold waiting_on. induction 1 as [|x l Hx _ IH]; simpl; [done|].
  destruct (Nat.eqb_spec x c); [done|exact IH].
Qed.

Lemma count_remove_first {A} `{EqDecision A} (f : A -> bool) (x : A)
    (l : list A) :
  x ∈ l ->
  length (List.filter f (remove_first x l)) + (if f x then 1 else 0)
    = length (List.filter f l).
Proof.
  induction l as [|y l IH]; intros Hin.
  - inversion Hin.
  - simpl. destruct (bool_decide_reflect (y = x)) as [->|Hyx].
    + destruct (f x); simpl; lia.
    + assert (Hin' : x ∈ l) by (inversion Hin; subst; done).
      specialize (IH Hin'). simpl. destruct (f y); simpl; lia.
Qed.

Lemma deliver_superseded (c : chanId) (s : Sys) (msg : Msg) :
  superseded c s ->
  superseded c (deliver s msg) /\ pending c (deliver s msg) = pending c s.
Proof.
  intros [Hlt Hne]. unfold deliver, superseded, pending.
  pose proof (Update_chan (sys_model s) msg (sys_rt s)) as (Hn & Hc & Hw).
  destruct (Update (sys_model s) msg (sys_rt s)) as [[m' cmds] rt'].
  cbn [fst snd sys_model sys_rt sys_waits sys_inbox] in *.
  assert (Hne' : logChan m' <> Some c).
  { destruct Hc as [->| ->]; [exact Hne|]. intros [= Heq]. lia. }
  split; [split; [lia|exact Hne']|].
  rewrite waiting_on_app, (waiting_on_other c (new_waits cmds)); [lia|].
  eapply Forall_impl; [exact Hw|]. intros x Hx ->. done.
Qed.

Lemma step_superseded (c : chanId) (s s' : Sys) (ev : Event) :
  sys_step s ev = Some s' ->
  superseded c s ->
  superseded c s' /\ lines_from c [ev] + pending c s' = pending c s.
Proof.
  intros Hstep Hs. destruct ev as [msg|st line|c' line|st]; simpl in Hstep.
  - destruct (is_logLine msg); [done|]. injection Hstep as <-.
    destruct (deliver_superseded c s msg Hs) as [H1 H2].
    split; [exact H1|]. rewrite H2. done.
  - destruct (bool_decide (st ∈ streams (sys_rt s))); [|done].
    destruct (bool_decide (s_out st ∈ sys_waits s)) eqn:Hin; [|done].
    apply bool_decide_eq_true in Hin. injection Hstep as <-.
    split; [exact Hs|]. unfold pending, lines_from.
    cbn [sys_waits sys_inbox List.filter length].
    pose proof (count_remove_first (fun x => Nat.eqb x c) (s_out st)
                  (sys_waits s) Hin) as Hr.
    unfold waiting_on, in_flight. rewrite List.filter_app, length_app.
    cbn [List.filter fst]. cbv beta in Hr.
    unfold chanId in *. destruct (Nat.eqb (s_out st) c); simpl in *; lia.
  - destruct (bool_decide ((c', line) ∈ sys_inbox s)) eqn:Hin; [|done].
    apply bool_decide_eq_true in Hin. injection Hstep as <-.
    set (s1 := {| sys_model := sys_model s; sys_rt := sys_rt s;
                  sys_waits := sys_waits s;
                  sys_inbox := remove_first (c', line) (sys_inbox s) |}).
    assert (Hs1 : superseded c s1) by exact Hs.
    destruct (deliver_superseded c s1 (logLineMsg line) Hs1) as [H1 H2].
    split; [exact H1|]. rewrite H2. subst s1. unfold pending, lines_from.
    cbn [sys_waits sys_inbox List.filter length].
    pose proof (count_remove_first (fun p => Nat.eqb p.1 c) (c', line)
                  (sys_inbox s) Hin) as Hr.
    unfold in_flight. cbv beta in Hr. cbn [fst] in Hr.
    unfold chanId in *. destruct (Nat.eqb c' c); simpl in *; lia.
  - destruct (bool_decide (st ∈ streams (sys_rt s))); [|done].
    injection Hstep as <-. split; [exact Hs|done].
Qed.

Lemma lines_from_cons (c : chanId) (ev : Event) (evs : list Event) :
  lines_from c (ev :: evs) = lines_from c [ev] + lines_from c evs.
Proof.
  unfold lines_from. simpl.
  destruct ev as [msg|st line|c' line|st]; simpl; try done.
  destruct (Nat.eqb c' c); done.
Qed.

Lemma run_superseded (c : chanId) (evs : list Event) :
  forall s s' : Sys,
    run s evs = Some s' ->
    superseded c s ->
    superseded c s' /\ lines_from c evs + pending c s' = pending c s.
Proof.
  induction evs as [|ev evs IH]; intros s s' Hrun Hs.
  - injection Hrun as <-. done.
  - cbn [run] in Hrun. destruct (sys_step s ev) as [s1|] eqn:Hstep; [|done].
    destruct (step_superseded c s s1 ev Hstep Hs) as [Hs1 Hc1].
    destruct (IH s1 s' Hrun Hs1) as [Hs' Hc'].
    split; [exact Hs'|]. rewrite lines_from_cons. lia.
Qed.

(** C1 (amended). Switching the subscription from one service to a
    different one cancels the old context, empties the buffer and makes a
    fresh channel the model's channel; an [Update] that changes the streaming
    target does all of that.  From then on a channel that is no
    longer the model's channel stays so, and every wait command that [Update]
    issues is on the model's channel.  What the old channel can still
    deliver are the lines of the waits blocked on it at the switch and the
    lines already received on it and on their way: the lines from the old
    channel on which [Update] is called and what is still pending on it
    always add up to what was pending on it at the switch.  So [Update] is
    called on at most that many lines of the old stream, and on none when
    nothing was pending. *)
Theorem C1_superseded_channel_bounded :
  (forall (m : model) (rt : Runtime) (name : string) (cA : chanId),
      logChan m = Some cA ->
      cA < next_chan rt ->
      streamingUnit m <> name ->
      let r := startStreaming m name rt in
      logLines r.1 = []
      /\ streamingUnit r.1 = name
      /\ logChan r.1 = Some (next_chan rt)
      /\ (forall ctx, logCancel m = Some ctx -> ctx ∈ cancelled r.2)
      /\ forall waits inbox,
           superseded cA {| sys_model := r.1; sys_rt := r.2;
                            sys_waits := waits; sys_inbox := inbox |})
  /\ (forall (c : chanId) (s s' : Sys) (evs : list Event),
        superseded c s ->
        run s evs = Some s' ->
        superseded c s'
        /\ lines_from c evs + pending c s' = pending c s
        /\ lines_from c evs <= pending c s)
  /\ (forall (m : model) (msg : Msg) (rt : Runtime),
        Forall (fun c => logChan (Update m msg rt).1.1 = Some c)
          (new_waits (Update m msg rt).1.2))
  /\ (forall (m : model) (msg : Msg) (rt : Runtime),
        let r := Update m msg rt in
        streamingUnit r.1.1 <> streamingUnit m -> switched m rt r.1.1 r.2).
Proof.
  split; [|split; [|split]].
  - intros m rt name cA Hc Hlt Hne r. subst r. unfold startStreaming.
    destruct (String.eqb_spec (streamingUnit m) name) as [Heq|_]; [done|].
    fields.
    assert (Hn : next_chan (call_logCancel (logCancel m) rt) = next_chan rt)
      by (destruct (logCancel m); done).
    rewrite Hn. do 3 (split; [done|]). split.
    + intros ctx ->. simpl. set_solver.
    + intros waits inbox. unfold superseded. cbn [sys_model sys_rt]. fields.
      cbn [next_chan spawn_stream]. rewrite Hn.
      split; [lia|]. intros [= Heq]. lia.
  - intros c s s' evs Hs Hrun.
    destruct (run_superseded c evs s s' Hrun Hs) as [H1 H2].
    split; [exact H1|]. split; [exact H2|lia].
  - intros m msg rt. apply Update_chan.
  - intros m msg rt r Hne.
    destruct (Update_switched m msg rt) as [Hsame|Hsw]; [done|exact Hsw].
Qed.

(** *** Rendering *)

Lemma wrap64_range (z : Z) : (- 2 ^ 63 <= wrap64 z < 2 ^ 63)%Z.
Proof.
  unfold wrap64.
  pose proof (Z.mod_pos_bound (z + 2 ^ 63) (2 ^ 64) ltac:(lia)). lia.
Qed.

Lemma wrap64_small (z : Z) : (- 2 ^ 63 <= z < 2 ^ 63)%Z -> wrap64 z = z.
Proof.
  intros Hz. unfold wrap64. rewrite Z.mod_small by lia. lia.
Qed.

Lemma sidebar_checked : forallb sidebar_ok (seq 0 (Z.to_nat 10001)) = true.
Proof. vm_compute. reflexivity. Qed.

Lemma sidebarWidthOf_bounds (cw : Z) :
  (0 <= cw <= 10000)%Z ->
  (cw * 7 / 20 - 1 <= sidebarWidthOf cw <= cw * 7 / 20)%Z
  /\ ((cw mod 20 <> 0)%Z -> sidebarWidthOf cw = (cw * 7 / 20)%Z).
Proof.
  intros Hcw.
  pose proof (proj1 (forallb_forall sidebar_ok (seq 0 (Z.to_nat 10001))) sidebar_checked
                (Z.to_nat cw)) as H.
  assert (Hin : In (Z.to_nat cw) (seq 0 (Z.to_nat 10001))) by (apply in_seq; lia).
  specialize (H Hin). unfold sidebar_ok in H.
  rewrite Z2Nat.id in H by lia. cbv zeta in H.
  apply andb_true_iff in H as [H Himp].
  apply andb_true_iff in H as [Hlo Hhi].
  apply Z.leb_le in Hlo, Hhi. split; [lia|].
  intros Hmod. apply Z.eqb_neq in Hmod. rewrite Hmod in Himp.
  apply Z.eqb_eq, Himp.
Qed.

Lemma int_sub_small (a b : Z) :
  (- 2 ^ 63 <= a - b < 2 ^ 63)%Z -> int_sub a b = (a - b)%Z.
Proof. apply wrap64_small. Qed.

Lemma length_append (a b : string) :
  String.length (a ++ b) = String.length a + String.length b.
Proof.
  induction a as [|c a IH]; [reflexivity|].
  change (S (String.length (a ++ b)) = S (String.length a + String.length b)).
  congruence.
Qed.

Lemma substring_prefix (n : nat) (s : string) :
  n <= String.length s ->
  String.length (String.substring 0 n s) = n
  /\ String.prefix (String.substring 0 n s) s = true.
Proof.
  revert s. induction n as [|n IH]; intros s Hn.
  - destruct s; done.
  - destruct s as [|c s]; simpl in Hn; [lia|].
    destruct (IH s ltac:(lia)) as [Hl Hp]. simpl. rewrite Hl, Hp.
    destruct (Ascii.ascii_dec c c); done.
Qed.

Lemma truncate_ok {A} (text : string) (avail : Z) (k : string -> option A) :
  Width_le_len ->
  (- 2 ^ 63 <= avail < 2 ^ 63)%Z ->
  exists shown : string,
    ((if (avail <? lipgloss_Width text)%Z then
        if (3 <? avail)%Z then
          t ← slice_to text (int_sub avail 3);
          Some (t ++ "...")
        else Some ""
      else Some text) ≫= k) = k shown
    /\ truncated text avail shown.
Proof.
  intros Width_le_len Hr. unfold truncated.
  destruct (Z.ltb_spec avail (lipgloss_Width text)) as [Hlt|Hge].
  - destruct (Z.ltb_spec 3 avail) as [H3|H3].
    + unfold int_sub. rewrite wrap64_small by lia.
      unfold slice_to. pose proof (Width_le_len text).
      destruct (Z.leb_spec 0 (avail - 3)); [|lia].
      destruct (Z.leb_spec (avail - 3) (Z.of_nat (String.length text))); [|lia].
      eexists. split; [reflexivity|]. repeat split; intros; first [lia|done].
    + exists "". split; [reflexivity|]. repeat split; intros; first [lia|done].
  - exists text. split; [reflexivity|]. repeat split; intros; first [lia|done].
Qed.

Lemma bind_Some {A B} (x : A) (k : A -> option B) : Some x ≫= k = k x.
Proof. reflexivity. Qed.

Lemma clamp_nonneg (z : Z) : (0 <= (if (z <? 0)%Z then 0 else z))%Z.
Proof. destruct (Z.ltb_spec z 0); lia. Qed.


Lemma clamped_range (z : Z) :
  (- 2 ^ 63 <= z < 2 ^ 63)%Z ->
  (0 <= (if (z <? 0)%Z then 0 else z) < 2 ^ 63)%Z.
Proof. intros Hz. destruct (Z.ltb_spec z 0); lia. Qed.


(** [Render] up to its call of [strings.Repeat]: the title shown and the
    gap are determined, and the row is rendered unless that call faults. *)
Lemma Render_cases (l : list_Model) (index : Z) (i : item) :
  Width_le_len ->
  let sel := (index =? list_Index l)%Z in
  let total := if (list_Width l <=? 0)%Z then 40%Z else list_Width l in
  let inner0 := int_sub total (itemStyle_FrameSize sel) in
  let inner := if (inner0 <? 0)%Z then 0%Z else inner0 in
  let bw := lipgloss_Width
              (statusBadge_Render (ActiveState (unit i))
                 (strings_ToUpper (ActiveState (unit i)))) in
  exists (title : string) (gap0 : Z),
    truncated (Title i) (int_sub (int_sub inner bw) 2) title
    /\ gap0
       = int_sub
           (int_sub inner (lipgloss_Width (titleStyle_Render sel title))) bw
    /\ match strings_Repeat " " (if (gap0 <? 0)%Z then 0%Z else gap0) with
       | Some _ =>
           exists row : Row,
             Render l index i = Some row
             /\ row_totalWidth row = total
             /\ (0 <= row_innerWidth row)%Z
             /\ (0 <= row_gapSize row)%Z
             /\ row_availableTitleWidth row
                = int_sub (int_sub (row_innerWidth row) bw) 2
             /\ truncated (Title i) (row_availableTitleWidth row)
                  (row_titleStr row)
             /\ truncated (Description (unit i)) (row_innerWidth row)
                  (row_descStr row)
       | None => Render l index i = None
       end.
Proof.
  intros HW. cbv zeta. unfold Render. cbv zeta.
  remember (if (list_Width l <=? 0)%Z then 40%Z else list_Width l)
    as total eqn:Etotal.
  clear Etotal.
  pose proof (clamped_range _
    (wrap64_range (total - itemStyle_FrameSize (index =? list_Index l)%Z)))
    as Hinner.
  fold (int_sub total (itemStyle_FrameSize (index =? list_Index l)%Z))
    in Hinner.
  remember (if (int_sub total _ <? 0)%Z then 0%Z else _)
    as inner eqn:Einner in *.
  clear Einner.
  remember (lipgloss_Width (statusBadge_Render _ _)) as bw eqn:Ebw.
  clear Ebw.
  remember (int_sub (int_sub inner bw) 2) as avail eqn:Eavail.
  assert (Havail : (- 2 ^ 63 <= avail < 2 ^ 63)%Z)
    by (subst avail; apply wrap64_range).
  lazymatch goal with
  | |- context [(_ ≫= ?k) = None] =>
      destruct (truncate_ok (Title i) avail k HW Havail)
        as (title & Ek & Ht)
  end.
  rewrite Ek. cbv beta.
  exists title. eexists. split; [exact Ht|]. split; [reflexivity|].
  match goal with
  | |- context [strings_Repeat " " ?g] =>
      remember g as gapSize eqn:Egap;
      assert (Hgap : (0 <= gapSize)%Z)
        by (subst gapSize; apply clamp_nonneg);
      clear Egap
  end.
  destruct (strings_Repeat " " gapSize) as [gap|]; [|reflexivity].
  rewrite bind_Some. cbv beta.
  match goal with
  | |- exists row, (_ ≫= ?k) = Some row /\ _ =>
      destruct (truncate_ok (Description (unit i)) inner k HW
                  ltac:(lia)) as (desc & -> & Hd)
  end.
  eexists. split; [reflexivity|]. split; [reflexivity|].
  split; [cbn [row_innerWidth]; lia|]. split; [exact Hgap|].
  split; [exact Eavail|]. split; [exact Ht|exact Hd].
Qed.

Lemma Render_inv (l : list_Model) (index : Z) (i : item) (row : Row) :
  Width_le_len ->
  Render l index i = Some row ->
  row_totalWidth row
    = (if (list_Width l <=? 0)%Z then 40%Z else list_Width l)
  /\ (0 <= row_innerWidth row)%Z
  /\ (0 <= row_gapSize row)%Z
  /\ row_availableTitleWidth row
     = int_sub
         (int_sub (row_innerWidth row)
            (lipgloss_Width
               (statusBadge_Render (ActiveState (unit i))
                  (strings_ToUpper (ActiveState (unit i)))))) 2
  /\ truncated (Title i) (row_availableTitleWidth row) (row_titleStr row)
  /\ truncated (Description (unit i)) (row_innerWidth row) (row_descStr row).
Proof.
  intros HW Hrow. pose proof (Render_cases l index i HW) as H.
  cbv zeta in H. destruct H as (title & gap0 & _ & _ & Hcase).
  destruct (strings_Repeat " " _) in Hcase.
  - destruct Hcase as (row' & Hrow' & Hprops).
    rewrite Hrow in Hrow'. injection Hrow' as <-. exact Hprops.
  - rewrite Hrow in Hcase. discriminate.
Qed.






(** *** Parsing the unit list *)

Lemma strings_Split_nonempty (s : string) (sep : ascii) :
  strings_Split s sep <> [].
Proof.
  destruct s as [|c s]; simpl; [done|].
  destruct (Ascii.eqb c sep); [done|].
  destruct (strings_Split s sep); done.
Qed.

Lemma strings_Split_app (a b : string) (sep : ascii) :
  strings_Split (a ++ String sep b) sep
    = (strings_Split a sep ++ strings_Split b sep)%list.
Proof.
  induction a as [|c a IH]; simpl.
  - rewrite Ascii.eqb_refl. done.
  - destruct (Ascii.eqb c sep); [rewrite IH; done|].
    rewrite IH. pose proof (strings_Split_nonempty a sep).
    destruct (strings_Split a sep); done.
Qed.

Lemma strings_Split_none (s : string) (sep : ascii) :
  all_bytes (fun c => negb (Ascii.eqb c sep)) s = true ->
  strings_Split s sep = [s].
Proof.
  induction s as [|c s IH]; simpl; [done|].
  intros [Hc Hs]%andb_true_iff. apply negb_true_iff in Hc.
  rewrite Hc, IH by done. done.
Qed.

Lemma all_bytes_app (f : ascii -> bool) (a b : string) :
  all_bytes f (a ++ b) = all_bytes f a && all_bytes f b.
Proof.
  induction a as [|c a IH]; simpl; [done|]. rewrite IH, andb_assoc. done.
Qed.

Lemma all_bytes_impl (f g : ascii -> bool) (s : string) :
  (forall c, f c = true -> g c = true) ->
  all_bytes f s = true -> all_bytes g s = true.
Proof.
  intros Hfg. induction s as [|c s IH]; simpl; [done|].
  intros [Hc Hs]%andb_true_iff. rewrite (Hfg c Hc), IH; done.
Qed.

Lemma space_width_ascii (c : ascii) (s : string) :
  space_width (String c s) = 0 -> ascii_space c = false.
Proof.
  unfold space_width. destruct (ascii_space c); [discriminate|done].
Qed.

Lemma append_nonempty_l (a b : string) : a <> "" -> a ++ b <> "".
Proof. destruct a; [done|discriminate]. Qed.

Lemma fields_scan_words (s : string) :
  forall (skip : nat) (cur : string),
    all_bytes (fun c => negb (ascii_space c)) cur = true ->
    Forall is_word (fields_scan s skip cur).
Proof.
  induction s as [|c s IH]; intros skip cur Hcur.
  - simpl. destruct cur; [constructor|].
    constructor; [|constructor]. split; [discriminate|exact Hcur].
  - cbn [fields_scan]. destruct skip as [|k]; [|apply IH, Hcur].
    destruct (space_width (String c s)) as [|k] eqn:Hw.
    + apply IH. rewrite all_bytes_app, Hcur. simpl.
      rewrite (space_width_ascii c s Hw). done.
    + apply Forall_app. split; [|apply IH; done].
      destruct cur; [constructor|].
      constructor; [|constructor]. split; [discriminate|exact Hcur].
Qed.

Lemma strings_Join_cons_nonempty (x : string) (rest : list string) (sep : string) :
  x <> "" -> strings_Join (x :: rest) sep <> "".
Proof.
  intros Hx. destruct rest; simpl; [done|]. apply append_nonempty_l, Hx.
Qed.

Lemma parseLine_words (line : string) (u : Unit) :
  parseLine line = Some u ->
  is_word (Name u) /\ is_word (LoadState u) /\ is_word (ActiveState u)
  /\ is_word (SubState u) /\ Description u <> "".
Proof.
  unfold parseLine, strings_Fields.
  pose proof (fields_scan_words line 0 "" eq_refl) as Hall.
  destruct (fields_scan line 0 "") as [|f0 [|f1 [|f2 [|f3 [|f4 rest]]]]];
    try discriminate.
  intros [= <-]. cbn [Name LoadState ActiveState SubState Description].
  apply Forall_cons in Hall as [H0 Hall].
  apply Forall_cons in Hall as [H1 Hall].
  apply Forall_cons in Hall as [H2 Hall].
  apply Forall_cons in Hall as [H3 Hall].
  apply Forall_cons in Hall as [H4 _].
  do 4 (split; [assumption|]).
  apply strings_Join_cons_nonempty, H4.
Qed.

Lemma parseUnits_app (a b : string) :
  parseUnits (a ++ String (ascii_of_nat 10) b)
    = (parseUnits a ++ parseUnits b)%list.
Proof. unfold parseUnits. rewrite strings_Split_app, omap_app. done. Qed.

(** X1. The lines of the output are parsed one by one: the units of two
    outputs joined by a newline are the units of the first followed by those
    of the second; the empty output and a final newline give no unit. *)
Theorem X1_parseUnits_line_by_line :
  forall a b : string,
    parseUnits (a ++ String (ascii_of_nat 10) b)
      = (parseUnits a ++ parseUnits b)%list
    /\ parseUnits (a ++ newline) = parseUnits a
    /\ parseUnits "" = [].
Proof.
  intros a b. split; [apply parseUnits_app|]. split; [|reflexivity].
  unfold newline. rewrite parseUnits_app. apply app_nil_r.
Qed.

(** X2. Every unit that [parseUnits] returns has a name, a load state, an
    active state and a sub state that are not empty and hold no ASCII white
    space, and a description that is not empty. *)
Theorem X2_parsed_units_have_words :
  forall (output : string) (u : Unit),
    u ∈ parseUnits output ->
    is_word (Name u) /\ is_word (LoadState u) /\ is_word (ActiveState u)
    /\ is_word (SubState u) /\ Description u <> "".
Proof.
  intros output u Hin. unfold parseUnits in Hin.
  apply list_elem_of_omap in Hin as (line & _ & Hline).
  exact (parseLine_words line u Hline).
Qed.

Lemma append_empty_r (s : string) : s ++ "" = s.
Proof.
  induction s as [|a s IH]; [reflexivity|].
  change (String a (s ++ "") = String a s). congruence.
Qed.

Lemma append_snoc (a : string) (c : ascii) (b : string) :
  (a ++ String c "") ++ b = a ++ String c b.
Proof.
  induction a as [|x a IH]; [reflexivity|].
  change (String x ((a ++ String c "") ++ b) = String x (a ++ String c b)).
  congruence.
Qed.

(** A space that follows completes no white space rune: the second and
    third bytes of the runes of more than one byte are 80 or above. *)
Lemma space_width_before_space (s r : string) :
  s <> "" -> space_width (s ++ String " " r) = space_width s.
Proof.
  intros Hs. destruct s as [|c1 [|c2 [|c3 s3]]]; [done| | |reflexivity].
  - change (space_width (String c1 (String " " r))
            = space_width (String c1 "")).
    destruct c1 as [[] [] [] [] [] [] [] []]; vm_compute; reflexivity.
  - change (space_width (String c1 (String c2 (String " " r)))
            = space_width (String c1 (String c2 ""))).
    destruct c1 as [[] [] [] [] [] [] [] []];
      try (vm_compute; reflexivity);
      destruct c2 as [[] [] [] [] [] [] [] []]; vm_compute; reflexivity.
Qed.

Lemma fields_scan_free (w : string) :
  forall (r cur : string),
    space_free w = true ->
    fields_scan (w ++ String " " r) 0 cur
      = fields_scan (String " " r) 0 (cur ++ w).
Proof.
  induction w as [|c w IH]; intros r cur Hw.
  - rewrite append_empty_r. done.
  - cbn [space_free] in Hw. apply andb_true_iff in Hw as [Hc Hw].
    apply Nat.eqb_eq in Hc.
    pose proof (space_width_before_space (String c w) r ltac:(discriminate))
      as Hsp.
    rewrite Hc in Hsp.
    change (String c w ++ String " " r) with (String c (w ++ String " " r))
      in Hsp |- *.
    cbn [fields_scan]. rewrite Hsp, IH by exact Hw.
    rewrite append_snoc. done.
Qed.

Lemma fields_scan_free_end (w : string) :
  forall cur : string,
    space_free w = true ->
    fields_scan w 0 cur = flush_field (cur ++ w).
Proof.
  induction w as [|c w IH]; intros cur Hw.
  - rewrite append_empty_r. done.
  - cbn [space_free] in Hw. apply andb_true_iff in Hw as [Hc Hw].
    apply Nat.eqb_eq in Hc.
    cbn [fields_scan]. rewrite Hc, IH by exact Hw.
    rewrite append_snoc. done.
Qed.

Lemma strings_Fields_Join (ws : list string) :
  Forall is_field ws ->
  strings_Fields (strings_Join ws " ") = ws.
Proof.
  unfold strings_Fields. induction 1 as [|w ws [Hne Hw] Hws IH]; [done|].
  destruct ws as [|w' ws'].
  - cbn [strings_Join]. rewrite (fields_scan_free_end w "" Hw).
    simpl. destruct w; done.
  - change (strings_Join (w :: w' :: ws') " ")
      with (w ++ String " " (strings_Join (w' :: ws') " ")).
    rewrite (fields_scan_free w _ "" Hw).
    change ("" ++ w) with w.
    cbn [fields_scan]. change (space_width (String " " _)) with 1.
    cbv beta iota. rewrite IH. destruct w; done.
Qed.

Lemma strings_Join_all_bytes (f : ascii -> bool) (ws : list string) :
  f " "%char = true ->
  Forall (fun w => all_bytes f w = true) ws ->
  all_bytes f (strings_Join ws " ") = true.
Proof.
  intros Hsp. induction 1 as [|w ws Hw Hws IH]; [done|].
  destruct ws as [|w' ws']; [exact Hw|].
  change (strings_Join (w :: w' :: ws') " ")
    with (w ++ " " ++ strings_Join (w' :: ws') " ").
  rewrite !all_bytes_app, Hw, IH. simpl. rewrite Hsp. done.
Qed.

Lemma ascii_space_not_newline (c : ascii) :
  ascii_space c = false -> negb (Ascii.eqb c (ascii_of_nat 10)) = true.
Proof.
  intros H.
  destruct c as [[] [] [] [] [] [] [] []];
    vm_compute in H; first [discriminate H | reflexivity].
Qed.

Lemma space_free_no_newline (w : string) :
  space_free w = true ->
  all_bytes (fun c => negb (Ascii.eqb c (ascii_of_nat 10))) w = true.
Proof.
  induction w as [|c w IH]; [done|]. cbn [space_free all_bytes].
  intros [Hc Hw]%andb_true_iff. apply Nat.eqb_eq in Hc.
  rewrite (ascii_space_not_newline c (space_width_ascii c w Hc)), IH; done.
Qed.

(** X3. A line of four fields and a description of at least one field, each
    separated from the next by one space, parses to the one unit with those
    four fields and that description; a field is any text that is not empty
    and holds no white space rune. *)
Theorem X3_parseUnits_round_trip :
  forall (name load active sub d : string) (ds : list string),
    Forall is_field (name :: load :: active :: sub :: d :: ds) ->
    parseUnits (strings_Join (name :: load :: active :: sub :: d :: ds) " ")
      = [{| Name := name; LoadState := load; ActiveState := active;
            SubState := sub; Description := strings_Join (d :: ds) " " |}].
Proof.
  intros name load active sub d ds Hws. unfold parseUnits.
  rewrite strings_Split_none.
  - cbn [omap list_omap]. unfold parseLine.
    rewrite (strings_Fields_Join _ Hws). done.
  - apply strings_Join_all_bytes; [reflexivity|].
    eapply Forall_impl; [exact Hws|]. intros w [_ Hw].
    apply space_free_no_newline, Hw.
Qed.

(** *** Icons *)

Lemma append_assoc (a b c : string) : (a ++ b) ++ c = a ++ b ++ c.
Proof.
  induction a as [|x a IH]; [reflexivity|].
  change (String x ((a ++ b) ++ c) = String x (a ++ b ++ c)). congruence.
Qed.

Lemma prefix_iff (p s : string) :
  String.prefix p s = true <-> exists r, s = p ++ r.
Proof.
  revert s. induction p as [|c p IH]; intros s.
  - split; [intros _; exists s; done|]. intros _. destruct s; done.
  - destruct s as [|d s]; simpl.
    + split; [discriminate|]. intros [r Hr]. discriminate.
    + destruct (Ascii.ascii_dec c d) as [->|Hcd].
      * rewrite IH. split; intros [r Hr]; exists r.
        -- change (String d s = String d (p ++ r)). congruence.
        -- change (String d s = String d (p ++ r)) in Hr. congruence.
      * split; [discriminate|]. intros [r Hr].
        change (String d s = String c (p ++ r)) in Hr. congruence.
Qed.

Lemma strings_Contains_iff (s x : string) :
  strings_Contains s x = true <-> exists a b, s = a ++ x ++ b.
Proof.
  induction s as [|c s IH].
  - cbn [strings_Contains]. rewrite orb_false_r, prefix_iff. split.
    + intros [r Hr]. exists "", r. exact Hr.
    + intros (a & b & Hab). destruct a; [exists b; exact Hab|discriminate].
  - cbn [strings_Contains]. rewrite orb_true_iff, prefix_iff, IH. split.
    + intros [[r Hr]|(a & b & Hab)].
      * exists "", r. exact Hr.
      * exists (String c a), b. rewrite Hab. reflexivity.
    + intros (a & b & Hab). destruct a as [|d a].
      * left. exists b. exact Hab.
      * right. exists a, b.
        change (String c s = String d (a ++ x ++ b)) in Hab. congruence.
Qed.

Lemma strings_Contains_part (s p q : string) :
  strings_Contains s (p ++ q) = true -> strings_Contains s q = true.
Proof.
  rewrite !strings_Contains_iff. intros (a & b & ->).
  exists (a ++ p), b. rewrite !append_assoc. done.
Qed.

(** X4. A unit whose lower-cased name contains "go" is shown with the
    gopher, whatever else its name contains, because the test for "go" is
    the last one; every name that contains "mongo" contains "go", so the
    leaf of "mongo" is never the icon of such a unit. *)
Theorem X4_gopher_icon_wins :
  (forall i : item,
      strings_Contains (strings_ToLower (Name (unit i))) "go" = true ->
      Title i = "🐹" ++ " " ++ Name (unit i))
  /\ (forall i : item,
        strings_Contains (strings_ToLower (Name (unit i))) "mongo" = true ->
        Title i = "🐹" ++ " " ++ Name (unit i)).
Proof.
  assert (Hgo : forall i : item,
    strings_Contains (strings_ToLower (Name (unit i))) "go" = true ->
    Title i = "🐹" ++ " " ++ Name (unit i)).
  { intros i H. unfold Title. cbv zeta. rewrite H. reflexivity. }
  split; [exact Hgo|].
  intros i H. apply Hgo. apply (strings_Contains_part _ "mon" "go"), H.
Qed.

(** *** Toggling the dev filter twice *)

(** X5. Outside the dashboard, pressing the dev-filter key twice brings the
    dev filter, the ServiceCollection and the items of the list back to what
    they were, provided the list showed the collection under the filter
    before; only the status message tells of it. *)
Theorem X5_double_toggle `{!WidgetLaws} :
  forall (m : model) (rt : Runtime),
    viewMode m <> ModeDashboard ->
    view_fresh m ->
    let m1 := (Update m (KeyMsg "d") rt).1.1 in
    let m2 := (Update m1 (KeyMsg "d") rt).1.1 in
    devMode m2 = devMode m
    /\ allUnits m2 = allUnits m
    /\ list_Items (list_ m2) = list_Items (list_ m)
    /\ viewMode m2 = viewMode m
    /\ activePane m2 = activePane m
    /\ logLines m2 = logLines m
    /\ statusMessage m2 = "Dev Mode: " ++ fmt_bool (devMode m).
Proof.
  intros m rt Hv Hfresh m1 m2. subst m1 m2.
  rewrite (Update_toggle m rt Hv). cbn [fst].
  rewrite Update_toggle by exact Hv. cbn [fst].
  unfold view_fresh in Hfresh. rewrite Hfresh.
  unfold updateListItems. fields.
  rewrite Items_SetTitle, Items_SetItems, negb_involutive. done.
Qed.

(** *** The paths of a key press *)

Lemma list_pane_key_path (m : model) (k : string) (rt : Runtime) :
  pane_path m k rt (list_pane_key m k rt).
Proof.
  unfold list_pane_key.
  destruct (key_Matches k keys_Enter) eqn:He.
  { cbn [list_ set_activePane set_viewMode].
    destruct (list_SelectedItem (list_ m)) as [i|] eqn:Hsel.
    - pose proof (pp_enter m k rt i He Hsel) as H. cbv zeta in H.
      destruct (startStreaming _ _ rt) as [m2 rt2]. exact H.
    - apply pp_enter_none; done. }
  destruct (key_Matches k keys_Config) eqn:Hc.
  { unfold with_selected. cbn [list_ set_activePane set_viewMode].
    destruct (list_SelectedItem (list_ m)) as [i|] eqn:Hsel.
    - apply pp_config; done.
    - apply pp_config_none; done. }
  unfold with_selected.
  destruct (key_Matches k keys_Start) eqn:Hs.
  { destruct (list_SelectedItem (list_ m)) as [i|] eqn:Hsel.
    - apply pp_action; try done. unfold action_of_key. rewrite Hs. done.
    - apply pp_idle; done. }
  destruct (key_Matches k keys_Stop) eqn:Hx.
  { destruct (list_SelectedItem (list_ m)) as [i|] eqn:Hsel.
    - apply pp_action; try done. unfold action_of_key. rewrite Hs, Hx. done.
    - apply pp_idle; done. }
  destruct (key_Matches k keys_Restart) eqn:Hr.
  { destruct (list_SelectedItem (list_ m)) as [i|] eqn:Hsel.
    - apply pp_action; try done.
      unfold action_of_key. rewrite Hs, Hx, Hr. done.
    - apply pp_idle; done. }
  apply pp_idle; done.
Qed.

Lemma Update_key_path (m : model) (k : string) (rt : Runtime) :
  key_path m k rt (Update m (KeyMsg k) rt).
Proof.
  unfold Update.
  destruct (key_Matches k keys_Quit) eqn:Hq; [apply kp_quit; done|].
  destruct (Mode_eqb (viewMode m) ModeDashboard) eqn:Hdash.
  { assert (Hv : viewMode m = ModeDashboard)
      by (destruct (viewMode m); done).
    destruct (existsb _ _) eqn:Hk; [apply kp_advance | apply kp_ignore];
      done. }
  assert (Hv : viewMode m <> ModeDashboard)
    by (intros Heq; rewrite Heq in Hdash; discriminate).
  destruct (key_Matches k keys_Tab) eqn:Ht; [apply kp_tab; done|].
  destruct (String.eqb_spec k "d") as [Hd|Hd]; [apply kp_toggle; done|].
  destruct (activePane m) eqn:Hp; cbn [Pane_eqb andb].
  - destruct (list_SettingFilter (list_ m)) eqn:Hf.
    + destruct (list_Update (list_ m) (KeyMsg k)) as [l cmd] eqn:Hl.
      change l with (l, cmd).1. change cmd with (l, cmd).2 at 2.
      rewrite <- Hl. apply kp_filter; done.
    + pose proof (list_pane_key_path m k rt) as Hpp.
      destruct (list_pane_key m k rt) as [[m1 cmds1] rt1].
      destruct (list_Update (list_ m1) (KeyMsg k)) as [l cmd] eqn:Hl.
      change l with (l, cmd).1. change cmd with (l, cmd).2 at 2.
      rewrite <- Hl. apply kp_list; done.
  - destruct (key_Matches k keys_Esc) eqn:He; [apply kp_esc; done|].
    destruct (viewport_Update (viewport m) (KeyMsg k)) as [vp cmd] eqn:Hvp.
    change vp with (vp, cmd).1. change cmd with (vp, cmd).2 at 2.
    rewrite <- Hvp. apply kp_viewport; done.
Qed.

(** *** The view mode *)

Lemma pane_path_viewMode m k rt m1 cmds1 rt1 :
  pane_path m k rt (m1, cmds1, rt1) ->
  viewMode m1 = viewMode m \/ viewMode m1 = ModeLogs
  \/ viewMode m1 = ModeConfig.
Proof.
  inversion 1; subst; auto.
  subst r. unfold startStreaming.
  destruct (String.eqb _ _); simpl; auto.
Qed.

Lemma Update_viewMode (m : model) (msg : Msg) (rt : Runtime) :
  viewMode m <> ModeDashboard ->
  viewMode (Update m msg rt).1.1 <> ModeDashboard.
Proof.
  intros Hv. destruct msg as [k|w h|units|line|content|s|e action|id|e|tag|];
    try exact Hv.
  - destruct (Update_key_path m k rt)
      as [ | | | | | |m1 cmds1 rt1 ? ? ? ? ? ? Hpp| | ];
      cbn [fst]; fields; try done.
    + destruct (Pane_eqb (activePane m) PaneList); exact Hv.
    + destruct (pane_path_viewMode _ _ _ _ _ _ Hpp) as [->|[->| ->]]; done.
  - simpl. destruct (String.eqb line ""); [done|].
    destruct (1000 <? _)%nat; simpl;
      destruct (Mode_eqb (viewMode m) ModeLogs); done.
  - simpl. destruct (Mode_eqb (viewMode m) ModeConfig); done.
  - simpl. destruct e; done.
  - simpl. destruct (spinner_Update (spinner m) (TickMsg id)); done.
Qed.

Lemma Update_dashboard_idle (m : model) (msg : Msg) (rt : Runtime) :
  dashboard_idle m -> dashboard_idle (Update m msg rt).1.1.
Proof.
  intros Hm Hv'.
  assert (Hv : viewMode m = ModeDashboard).
  { destruct (viewMode m) eqn:E; [done| | |];
      exfalso; apply (Update_viewMode m msg rt); [rewrite E; done|exact Hv'|
      rewrite E; done|exact Hv'|rewrite E; done|exact Hv']. }
  specialize (Hm Hv).
  destruct msg as [k|w h|units|line|content|s|e action|id|e|tag|];
    try exact Hm.
  - destruct (Update_key_path m k rt)
      as [ | | | | | | | | ]; cbn [fst] in *; fields; try done.
  - simpl. destruct (String.eqb line ""); [done|].
    destruct (1000 <? _)%nat; simpl;
      destruct (Mode_eqb (viewMode m) ModeLogs); done.
  - simpl. destruct (Mode_eqb (viewMode m) ModeConfig); done.
  - simpl. destruct e; done.
  - simpl. destruct (spinner_Update (spinner m) (TickMsg id)); done.
Qed.

(** X6. Once the dashboard has been left no message brings it back; and in
    every state reached from the initial one, while the dashboard is still
    shown the list pane is active and no subscription has been started. *)
Theorem X6_dashboard_left_for_good :
  (forall (m : model) (msgs : list Msg) (rt : Runtime),
      viewMode m <> ModeDashboard ->
      viewMode (fold_Update m rt msgs).1 <> ModeDashboard)
  /\ (forall (msgs : list Msg) (rt : Runtime),
        let m := (fold_Update NewModel rt msgs).1 in
        viewMode m = ModeDashboard ->
        activePane m = PaneList /\ streamingUnit m = ""
        /\ logChan m = None /\ logCancel m = None).
Proof.
  split.
  - intros m msgs. revert m.
    induction msgs as [|msg msgs IH]; intros m rt Hv; [exact Hv|].
    rewrite fold_Update_cons. apply IH, Update_viewMode, Hv.
  - intros msgs rt m. subst m.
    assert (H : forall m rt, dashboard_idle m ->
                dashboard_idle (fold_Update m rt msgs).1).
    { induction msgs as [|msg msgs IH]; intros m rt' Hm; [exact Hm|].
      rewrite fold_Update_cons. apply IH, Update_dashboard_idle, Hm. }
    apply H. intros _. done.
Qed.

(** *** Keys while the filter is being typed *)

(** X7. While the list takes filter input (list pane, outside the
    dashboard), a key other than quit, tab and [d] goes to the list widget
    alone: mode, pane, subscription, status and runtime stay and only the
    list's own command is returned.  The key [d] still toggles the dev
    filter, without reaching the list widget, and [q] still quits. *)
Theorem X7_keys_while_filtering :
  forall (m : model) (rt : Runtime),
    viewMode m <> ModeDashboard ->
    activePane m = PaneList ->
    list_SettingFilter (list_ m) = true ->
    (forall k : string,
        key_Matches k keys_Quit = false ->
        key_Matches k keys_Tab = false ->
        k <> "d" ->
        Update m (KeyMsg k) rt
          = (set_list_ (list_Update (list_ m) (KeyMsg k)).1 m,
             tea_Batch [wcmd (list_Update (list_ m) (KeyMsg k)).2], rt))
    /\ Update m (KeyMsg "d") rt
       = (let m1 := updateListItems (set_devMode (negb (devMode m)) m) in
          set_statusMessage ("Dev Mode: " ++ fmt_bool (devMode m1)) m1,
          [], rt)
    /\ Update m (KeyMsg "q") rt
       = (m, [Cmd_Quit], call_logCancel (logCancel m) rt).
Proof.
  intros m rt Hv Hp Hf. split; [|split].
  - intros k Hq Ht Hd. unfold Update. rewrite Hq, Ht, Hp, Hf.
    assert (Hdash : Mode_eqb (viewMode m) ModeDashboard = false)
      by (destruct (viewMode m); done).
    rewrite Hdash. destruct (String.eqb_spec k "d"); [done|].
    cbn [Pane_eqb andb].
    destruct (list_Update (list_ m) (KeyMsg k)); done.
  - apply Update_toggle, Hv.
  - reflexivity.
Qed.

(** *** Where effects come from *)

Lemma elem_of_tea_Batch (c : Cmd) (cmds : list (option Cmd)) :
  c ∈ tea_Batch cmds <-> Some c ∈ cmds.
Proof.
  unfold tea_Batch. rewrite list_elem_of_omap. split.
  - intros (x & Hx & Hid). destruct x; simpl in Hid; [|done].
    injection Hid as <-. exact Hx.
  - intros H. exists (Some c). done.
Qed.

Lemma effect_not_widget (c : Cmd) (o : option WCmd) :
  is_effect c = true -> Some c ∈ [wcmd o] -> False.
Proof.
  intros He Hin. apply list_elem_of_singleton in Hin.
  destruct o; simpl in Hin; [|done]. injection Hin as ->. done.
Qed.

(** X11. A key press returns a control action, a config fetch or a wait
    for a log line only when it is made in the list pane, outside the
    dashboard, while the list is not taking filter input and a unit is
    selected; the command is then for the selected unit: the action of the
    key [s], [x] or [r] with its label, the config fetch of the key [c], or
    the wait on the model's channel of the key [enter]. *)
Theorem X11_effects_come_from_the_list_pane :
  forall (m : model) (k : string) (rt : Runtime) (c : Cmd),
    c ∈ (Update m (KeyMsg k) rt).1.2 ->
    is_effect c = true ->
    viewMode m <> ModeDashboard
    /\ activePane m = PaneList
    /\ list_SettingFilter (list_ m) = false
    /\ exists i : item,
         list_SelectedItem (list_ m) = Some i
         /\ ((exists act label,
                action_of_key k = Some (act, label)
                /\ c = Cmd_performAction act (Name (unit i)) label)
             \/ (key_Matches k keys_Config = true
                 /\ c = Cmd_fetchConfig (Name (unit i)))
             \/ (key_Matches k keys_Enter = true
                 /\ c = Cmd_waitForLogLine
                          (logChan (Update m (KeyMsg k) rt).1.1))).
Proof.
  intros m k rt c Hin He.
  destruct (Update_key_path m k rt)
    as [ | | | | | |m1 cmds1 rt1 Hq Hv Ht Hd Hp Hf Hpp| | ];
    cbn [fst snd] in Hin.
  - apply list_elem_of_singleton in Hin. subst c. done.
  - inversion Hin.
  - inversion Hin.
  - inversion Hin.
  - inversion Hin.
  - apply elem_of_tea_Batch in Hin.
    exfalso. exact (effect_not_widget c _ He Hin).
  - apply elem_of_tea_Batch, elem_of_app in Hin as [Hin|Hin];
      [|exfalso; exact (effect_not_widget c _ He Hin)].
    do 3 (split; [done|]).
    inversion Hpp as [i Hke Hsel r Heq|Hke Hsel Heq|i Hke Hkc Hsel Heq
                     |Hke Hkc Hsel Heq|i act label Hke Hkc Hact Hsel Heq
                     |Hke Hkc Heq]; subst.
    + apply list_elem_of_singleton in Hin. injection Hin as ->.
      exists i. split; [done|]. right. right. split; [done|].
      cbn [fst]. fields. done.
    + inversion Hin.
    + apply list_elem_of_singleton in Hin. injection Hin as ->.
      exists i. split; [done|]. right. left. done.
    + inversion Hin.
    + apply list_elem_of_singleton in Hin. injection Hin as ->.
      exists i. split; [done|]. left. exists act, label. done.
    + inversion Hin.
  - inversion Hin.
  - apply elem_of_tea_Batch in Hin.
    exfalso. exact (effect_not_widget c _ He Hin).
Qed.

(** *** Switching panes *)

Lemma Update_tab (m : model) (rt : Runtime) :
  viewMode m <> ModeDashboard ->
  Update m (KeyMsg "tab") rt
    = (if Pane_eqb (activePane m) PaneList
       then set_activePane PaneContent m
       else set_activePane PaneList m, [], rt).
Proof.
  intros Hv. unfold Update. cbn [key_Matches keys_Quit keys_Tab existsb].
  destruct (viewMode m); done.
Qed.

(** X13. Outside the dashboard the tab key only switches the active pane,
    and pressing it twice gives back the very same state. *)
Theorem X13_tab_twice :
  forall (m : model) (rt : Runtime),
    viewMode m <> ModeDashboard ->
    let r1 := Update m (KeyMsg "tab") rt in
    activePane r1.1.1 <> activePane m
    /\ r1.1.2 = [] /\ r1.2 = rt
    /\ Update r1.1.1 (KeyMsg "tab") rt = (m, [], rt).
Proof.
  intros m rt Hv r1. subst r1. rewrite (Update_tab m rt Hv). cbn [fst snd].
  assert (Hv' : viewMode (if Pane_eqb (activePane m) PaneList
                          then set_activePane PaneContent m
                          else set_activePane PaneList m) <> ModeDashboard)
    by (destruct (Pane_eqb _ _); exact Hv).
  rewrite (Update_tab _ rt Hv').
  destruct m as [l vp hp sp pane mode dev w h units lines cfg su st ctx can
                 ch er status].
  destruct pane; simpl; repeat split; done.
Qed.

(** *** The live stream *)

Lemma startStreaming_sub_change (m : model) (name : string) (rt : Runtime) :
  let r := startStreaming m name rt in sub_change m rt r.1 r.2.
Proof.
  unfold startStreaming.
  destruct (String.eqb (streamingUnit m) name); [apply sc_same; done|].
  apply (sc_start _ _ _ _ name); fields; try done.
  - destruct (logCancel m); done.
  - destruct (logCancel m); done.
Qed.

Lemma sub_change_frame (m0 m : model) (rt : Runtime) (m' : model)
    (rt' : Runtime) :
  same_sub m0 m -> logCancel m0 = logCancel m ->
  sub_change m rt m' rt' -> sub_change m0 rt m' rt'.
Proof.
  intros (Hc & Hch & Hs) _ [[Hc' [Hch' Hs']] Hrt|[Hc' [Hch' Hs']] Hrt
                           |name H1 H2 H3 Hrt].
  - apply sc_same; [|exact Hrt]. repeat split; congruence.
  - apply sc_quit; [repeat split; congruence|]. rewrite Hrt. congruence.
  - apply (sc_start _ _ _ _ name); try done. rewrite Hrt. congruence.
Qed.

Lemma pane_outcome_sub_change m rt m1 cmds1 rt1 :
  pane_outcome m rt (m1, cmds1, rt1) -> sub_change m rt m1 rt1.
Proof.
  inversion 1 as [i Hsel r Heq|v cmds Hw Heq|cmds Hw Heq]; subst.
  - subst r.
    eapply sub_change_frame; [| |apply startStreaming_sub_change]; done.
  - apply sc_same; done.
  - apply sc_same; done.
Qed.

Lemma Update_sub_change (m : model) (msg : Msg) (rt : Runtime) :
  let r := Update m msg rt in sub_change m rt r.1.1 r.2.
Proof.
  destruct msg as [k|w h|units|line|content|s|e action|id|e|tag|];
    try (apply sc_same; done).
  - destruct (Update_key_outcome m k rt)
      as [| | | | | cmds Hw|vp cmds Hw|m1 cmds1 rt1 cmds Hp Hw];
      cbn [fst snd]; try (apply sc_same; done).
    + apply sc_quit; done.
    + apply pane_outcome_sub_change in Hp.
      destruct Hp as [[Hc [Hch Hs]] Hrt|[Hc [Hch Hs]] Hrt|name H1 H2 H3 Hrt].
      * apply sc_same; done.
      * apply sc_quit; done.
      * apply (sc_start _ _ _ _ name); done.
  - apply sc_same; [|done]. simpl. destruct (String.eqb line ""); [done|].
    destruct (1000 <? _)%nat; simpl;
      destruct (Mode_eqb (viewMode m) ModeLogs); done.
  - apply sc_same; [|done]. simpl.
    destruct (Mode_eqb (viewMode m) ModeConfig); done.
  - simpl. destruct e; apply sc_same; done.
  - simpl. destruct (spinner_Update (spinner m) (TickMsg id)).
    apply sc_same; done.
Qed.

Lemma call_logCancel_facts (h : option ctxId) (rt : Runtime) :
  next_ctx (call_logCancel h rt) = next_ctx rt
  /\ next_chan (call_logCancel h rt) = next_chan rt
  /\ streams (call_logCancel h rt) = streams rt
  /\ cancelled rt ⊆ cancelled (call_logCancel h rt)
  /\ (forall c, h = Some c -> c ∈ cancelled (call_logCancel h rt)).
Proof.
  destruct h as [c|]; simpl; repeat split; try done; try set_solver.
Qed.

Lemma live_inv_change (m m' : model) (rt rt' : Runtime)
    (w w' : list chanId) (i i' : list (chanId * string)) :
  sub_change m rt m' rt' ->
  live_inv {| sys_model := m; sys_rt := rt; sys_waits := w; sys_inbox := i |} ->
  live_inv {| sys_model := m'; sys_rt := rt'; sys_waits := w';
              sys_inbox := i' |}.
Proof.
  unfold live_inv. cbn [sys_model sys_rt].
  intros Hchange [Hnd Hall].
  destruct Hchange as [[Hc [Hch Hs]] Hrt|[Hc [Hch Hs]] Hrt|name H1 H2 H3 Hrt];
    subst rt'.
  - split; [exact Hnd|]. intros st Hst. rewrite Hc, Hch, Hs. auto.
  - destruct (call_logCancel_facts (logCancel m) rt)
      as (Hn & _ & Hst & Hsub & _).
    rewrite Hst, Hn. split; [exact Hnd|]. intros st Hin.
    destruct (Hall st Hin) as [Hlt [Hcan|Hcur]]; split; try done.
    + left. exact (elem_of_weaken _ _ _ Hcan Hsub).
    + right. rewrite Hc, Hch, Hs. exact Hcur.
  - destruct (call_logCancel_facts (logCancel m) rt)
      as (Hn & Hnc & Hst & Hsub & Hcan').
    cbn [streams next_ctx cancelled spawn_stream]. rewrite Hst, Hn, Hnc.
    split.
    + rewrite fmap_app. apply NoDup_app. split; [exact Hnd|].
      split; [|apply NoDup_singleton].
      intros c Hc Hc'. cbn in Hc'. apply list_elem_of_singleton in Hc'.
      apply list_elem_of_fmap in Hc as (st & -> & Hin).
      destruct (Hall st Hin) as [Hlt _]. cbn [s_ctx] in Hc'. lia.
    + intros st [Hin|Hin]%elem_of_app.
      * destruct (Hall st Hin) as [Hlt [Hcan|(Hcur & _)]];
          (split; [lia|]); left.
        -- exact (elem_of_weaken _ _ _ Hcan Hsub).
        -- apply Hcan'. exact Hcur.
      * apply list_elem_of_singleton in Hin. subst st. cbn [s_ctx s_out s_name].
        split; [lia|]. right. done.
Qed.

Lemma filter_sublist_of {A} (f : A -> bool) (l : list A) :
  List.filter f l `sublist_of` l.
Proof.
  induction l as [|x l IH]; simpl; [constructor|].
  destruct (f x); [apply sublist_skip|apply sublist_cons]; exact IH.
Qed.

Lemma live_inv_step (s s' : Sys) (ev : Event) :
  sys_step s ev = Some s' -> live_inv s -> live_inv s'.
Proof.
  intros Hstep Hs. destruct ev as [msg|st line|c line|st]; simpl in Hstep.
  - destruct (is_logLine msg); [done|]. injection Hstep as <-.
    unfold deliver.
    pose proof (Update_sub_change (sys_model s) msg (sys_rt s)) as Hch.
    destruct (Update (sys_model s) msg (sys_rt s)) as [[m' cmds] rt'].
    destruct s. eapply live_inv_change; [exact Hch|exact Hs].
  - destruct (_ && _); [|done]. injection Hstep as <-. exact Hs.
  - destruct (bool_decide _); [|done]. injection Hstep as <-.
    unfold deliver. cbn [sys_model sys_rt sys_waits sys_inbox].
    pose proof (Update_sub_change (sys_model s) (logLineMsg line) (sys_rt s))
      as Hch.
    destruct (Update (sys_model s) (logLineMsg line) (sys_rt s))
      as [[m' cmds] rt'].
    destruct s. eapply live_inv_change; [exact Hch|exact Hs].
  - destruct (bool_decide _); [|done]. injection Hstep as <-.
    destruct Hs as [Hnd Hall]. unfold live_inv.
    cbn [sys_model sys_rt streams stop_stream next_ctx cancelled].
    split.
    + eapply sublist_NoDup; [exact Hnd|].
      apply fmap_sublist, filter_sublist_of.
    + intros st' Hin. apply Hall.
      eapply elem_of_sublist; [exact Hin|apply filter_sublist_of].
Qed.

Lemma live_inv_run (evs : list Event) :
  forall s s' : Sys, run s evs = Some s' -> live_inv s -> live_inv s'.
Proof.
  induction evs as [|ev evs IH]; intros s s' Hrun Hs.
  - injection Hrun as <-. exact Hs.
  - cbn [run] in Hrun. destruct (sys_step s ev) as [s1|] eqn:Hstep; [|done].
    eapply IH; [exact Hrun|]. eapply live_inv_step; eauto.
Qed.

Lemma live_inv_sys0 : live_inv sys0.
Proof. split; [constructor|]. intros st Hst. inversion Hst. Qed.

Lemma NoDup_fmap_eq {A B} (f : A -> B) (l : list A) (x y : A) :
  NoDup (f <$> l) -> x ∈ l -> y ∈ l -> f x = f y -> x = y.
Proof.
  induction l as [|z l IH]; intros Hnd Hx Hy Hxy; [inversion Hx|].
  rewrite fmap_cons in Hnd. apply NoDup_cons in Hnd as [Hz Hnd].
  apply elem_of_cons in Hx as [->|Hx]; apply elem_of_cons in Hy as [->|Hy].
  - done.
  - exfalso. apply Hz. rewrite Hxy. apply list_elem_of_fmap. eauto.
  - exfalso. apply Hz. rewrite <- Hxy. apply list_elem_of_fmap. eauto.
  - apply IH; done.
Qed.

(** X8. In every state that the system reaches from its start, at most one
    running log stream has a context that is not cancelled, and that stream
    is the one of the model's subscription: it streams the model's target
    onto the model's channel under the context whose cancel handle the model
    holds. *)
Theorem X8_at_most_one_live_stream :
  forall (evs : list Event) (s : Sys),
    run sys0 evs = Some s ->
    (forall st1 st2 : Stream,
        st1 ∈ streams (sys_rt s) -> st2 ∈ streams (sys_rt s) ->
        s_ctx st1 ∉ cancelled (sys_rt s) ->
        s_ctx st2 ∉ cancelled (sys_rt s) ->
        st1 = st2)
    /\ (forall st : Stream,
          st ∈ streams (sys_rt s) ->
          s_ctx st ∉ cancelled (sys_rt s) ->
          s_name st = streamingUnit (sys_model s)
          /\ logChan (sys_model s) = Some (s_out st)
          /\ logCancel (sys_model s) = Some (s_ctx st)).
Proof.
  intros evs s Hrun.
  destruct (live_inv_run evs sys0 s Hrun live_inv_sys0) as [Hnd Hall].
  split.
  - intros st1 st2 H1 H2 Hn1 Hn2.
    destruct (Hall st1 H1) as [_ [?|(Hc1 & _)]]; [done|].
    destruct (Hall st2 H2) as [_ [?|(Hc2 & _)]]; [done|].
    apply (NoDup_fmap_eq s_ctx (streams (sys_rt s))); try done. congruence.
  - intros st Hin Hn.
    destruct (Hall st Hin) as [_ [?|(Hc & Hch & Hs)]]; done.
Qed.

(** X9. When a quit key is pressed in a state that the system has reached,
    the context of every running log stream is cancelled afterwards, and the
    only command returned is the quit. *)
Theorem X9_quit_cancels_every_stream :
  forall (evs : list Event) (s : Sys) (k : string),
    run sys0 evs = Some s ->
    key_Matches k keys_Quit = true ->
    let r := Update (sys_model s) (KeyMsg k) (sys_rt s) in
    r.1.1 = sys_model s /\ r.1.2 = [Cmd_Quit]
    /\ forall st : Stream, st ∈ streams r.2 -> s_ctx st ∈ cancelled r.2.
Proof.
  intros evs s k Hrun Hq r. subst r. unfold Update. rewrite Hq. cbn [fst snd].
  do 2 (split; [done|]).
  destruct (live_inv_run evs sys0 s Hrun live_inv_sys0) as [_ Hall].
  destruct (call_logCancel_facts (logCancel (sys_model s)) (sys_rt s))
    as (_ & _ & Hst & Hsub & Hcan).
  rewrite Hst. intros st Hin.
  destruct (Hall st Hin) as [_ [Hold|(Hc & _)]];
    [exact (elem_of_weaken _ _ _ Hold Hsub)|].
  apply Hcan, Hc.
Qed.

(** *** The wait for the next line *)

Lemma waiting_on_elem (c : chanId) (l : list chanId) :
  c ∈ l -> 1 <= waiting_on c l.
Proof.
  unfold waiting_on. induction l as [|x l IH]; intros Hin; [inversion Hin|].
  simpl. destruct (Nat.eqb_spec x c); [simpl; lia|].
  apply IH. apply elem_of_cons in Hin as [->|Hin]; done.
Qed.

Lemma pane_outcome_feeds m rt m1 cmds1 rt1 :
  pane_outcome m rt (m1, cmds1, rt1) ->
  logChan m1 = logChan m
  \/ (forall c, logChan m1 = Some c -> c ∈ new_waits (tea_Batch cmds1)).
Proof.
  inversion 1 as [i Hsel r Heq|v cmds Hw Heq|cmds Hw Heq]; subst; auto.
  right. intros c Hc. simpl. rewrite Hc. simpl. constructor.
Qed.

Lemma Update_feeds (m : model) (msg : Msg) (rt : Runtime) :
  let r := Update m msg rt in
  logChan r.1.1 = logChan m
  \/ (forall c, logChan r.1.1 = Some c -> c ∈ new_waits r.1.2).
Proof.
  destruct msg as [k|w h|units|line|content|s|e action|id|e|tag|];
    try (left; reflexivity).
  - destruct (Update_key_outcome m k rt)
      as [| | | | | cmds Hw|vp cmds Hw|m1 cmds1 rt1 cmds Hp Hw];
      try (left; reflexivity).
    cbn [fst snd]. fields. rewrite Hw.
    exact (pane_outcome_feeds _ _ _ _ _ Hp).
  - left. simpl. destruct (String.eqb line ""); [done|].
    destruct (1000 <? _)%nat; simpl;
      destruct (Mode_eqb (viewMode m) ModeLogs); done.
  - left. simpl. destruct (Mode_eqb (viewMode m) ModeConfig); done.
  - left. simpl. destruct e; done.
  - left. simpl. destruct (spinner_Update (spinner m) (TickMsg id)); done.
Qed.

Lemma Update_logLine_feeds (m : model) (line : string) (rt : Runtime) :
  let r := Update m (logLineMsg line) rt in
  forall c, logChan r.1.1 = Some c -> c ∈ new_waits r.1.2.
Proof.
  simpl. intros c Hc. rewrite Hc. simpl. constructor.
Qed.

Lemma deliver_fed (s : Sys) (msg : Msg) : fed s -> fed (deliver s msg).
Proof.
  intros Hs c. unfold deliver, pending.
  pose proof (Update_feeds (sys_model s) msg (sys_rt s)) as Hf.
  destruct (Update (sys_model s) msg (sys_rt s)) as [[m' cmds] rt'].
  cbn [fst snd sys_model sys_waits sys_inbox] in *. intros Hc.
  rewrite waiting_on_app. destruct Hf as [Hsame|Hnew].
  - rewrite Hsame in Hc. specialize (Hs c Hc). unfold pending in Hs. lia.
  - pose proof (waiting_on_elem c _ (Hnew c Hc)). lia.
Qed.

Lemma fed_step (s s' : Sys) (ev : Event) :
  sys_step s ev = Some s' -> fed s -> fed s'.
Proof.
  intros Hstep Hs. destruct ev as [msg|st line|c' line|st]; simpl in Hstep.
  - destruct (is_logLine msg); [done|]. injection Hstep as <-.
    apply deliver_fed, Hs.
  - destruct (bool_decide (st ∈ streams (sys_rt s))); [|done].
    destruct (bool_decide (s_out st ∈ sys_waits s)) eqn:Hin; [|done].
    apply bool_decide_eq_true in Hin. injection Hstep as <-.
    intros c Hc. specialize (Hs c Hc). unfold pending in *.
    cbn [sys_model sys_waits sys_inbox] in *.
    pose proof (count_remove_first (fun x => Nat.eqb x c) (s_out st)
                  (sys_waits s) Hin) as Hr.
    unfold waiting_on, in_flight in *. rewrite List.filter_app, length_app.
    cbn [List.filter fst]. cbv beta in Hr. unfold chanId in *.
    destruct (Nat.eqb (s_out st) c); simpl in *; lia.
  - destruct (bool_decide ((c', line) ∈ sys_inbox s)); [|done].
    injection Hstep as <-. intros c. unfold deliver, pending.
    cbn [sys_model sys_rt sys_waits sys_inbox].
    pose proof (Update_logLine_feeds (sys_model s) line (sys_rt s)) as Hf.
    destruct (Update (sys_model s) (logLineMsg line) (sys_rt s))
      as [[m' cmds] rt'].
    cbn [fst snd sys_model sys_waits sys_inbox] in *. intros Hc.
    rewrite waiting_on_app. pose proof (waiting_on_elem c _ (Hf c Hc)). lia.
  - destruct (bool_decide _); [|done]. injection Hstep as <-. exact Hs.
Qed.

(** X15. In every state that the system reaches from its start, while the
    model has a log channel there is at least one wait blocked on that
    channel or one line received on it still on its way: the stream of the
    current subscription never goes unread. *)
Theorem X15_current_channel_is_read :
  forall (evs : list Event) (s : Sys) (c : chanId),
    run sys0 evs = Some s ->
    logChan (sys_model s) = Some c ->
    1 <= pending c s.
Proof.
  intros evs s c Hrun.
  assert (H : forall evs s0 s1, run s0 evs = Some s1 -> fed s0 -> fed s1).
  { clear. induction evs as [|ev evs IH]; intros s0 s1 Hrun Hs.
    - injection Hrun as <-. exact Hs.
    - cbn [run] in Hrun.
      destruct (sys_step s0 ev) as [s2|] eqn:Hstep; [|done].
      eapply IH; [exact Hrun|]. eapply fed_step; eauto. }
  apply (H evs sys0 s Hrun). intros c0 Hc0. discriminate.
Qed.

(** *** The split of the window *)

(** X10. For a window between 4 and 10004 columns wide the sidebar gets 35
    percent of the content width, rounded down, or one column less when the
    content width is a multiple of 20 (the product is formed in binary64);
    the list is sized to the sidebar less 2 columns and to the height less
    10 rows, the viewport to the rest of the content width less 2 columns
    and to the height less 8 rows, and no command is returned. *)
Theorem X10_window_split :
  forall (m : model) (w h : Z) (rt : Runtime),
    (4 <= w <= 10004)%Z ->
    (- 2 ^ 62 <= h <= 2 ^ 62)%Z ->
    let cw := (w - 4)%Z in
    let sw := sidebarWidthOf cw in
    let r := Update m (WindowSizeMsg w h) rt in
    (cw * 7 / 20 - 1 <= sw <= cw * 7 / 20)%Z
    /\ ((cw mod 20 <> 0)%Z -> sw = (cw * 7 / 20)%Z)
    /\ r.1.2 = [] /\ r.2 = rt
    /\ width r.1.1 = w /\ height r.1.1 = h
    /\ list_ r.1.1 = list_SetSize (list_ m) (sw - 2) (h - 10)
    /\ viewport r.1.1
       = viewport_SetHeight
           (viewport_SetWidth (viewport m) (cw - sw - 2)) (h - 8).
Proof.
  intros m w h rt Hw Hh cw sw r.
  destruct (sidebarWidthOf_bounds cw ltac:(subst cw; lia)) as [Hb Hex].
  fold sw in Hb, Hex.
  assert (Hsw : (-1 <= sw <= 10000)%Z).
  { assert (0 <= cw * 7 / 20 <= 7000)%Z; [|lia].
    split; [apply Z.div_pos; subst cw; lia|].
    apply Z.div_le_upper_bound; subst cw; lia. }
  split; [exact Hb|]. split; [exact Hex|].
  subst r. unfold Update. cbv zeta. fields.
  rewrite (int_sub_small w 4) by lia. fold cw. fold sw.
  rewrite (int_sub_small h 4) by lia.
  rewrite (int_sub_small sw 2) by lia.
  rewrite (int_sub_small (h - 4) 4) by lia.
  rewrite (int_sub_small (h - 4 - 4) 2) by lia.
  rewrite (int_sub_small cw sw) by (subst cw; lia).
  rewrite (int_sub_small (cw - sw) 2) by (subst cw; lia).
  replace (h - 4 - 4 - 2)%Z with (h - 10)%Z by lia.
  replace (h - 4 - 4)%Z with (h - 8)%Z by lia.
  repeat split.
Qed.

(** *** Truncated rows *)

(** X12. When a row's title or description does not fit and the available
    width exceeds 3, what is shown is a prefix of the text of available
    width less 3 bytes followed by three dots: exactly as many bytes as
    the available width, provided no text is wider than it has bytes. *)
Theorem X12_truncated_to_available_bytes :
  Width_le_len ->
  forall (l : list_Model) (index : Z) (i : item) (row : Row),
    Render l index i = Some row ->
    ((row_availableTitleWidth row < lipgloss_Width (Title i))%Z ->
     (3 < row_availableTitleWidth row)%Z ->
     Z.of_nat (String.length (row_titleStr row)) = row_availableTitleWidth row
     /\ exists p, row_titleStr row = p ++ "..."
                  /\ String.prefix p (Title i) = true)
    /\ ((row_innerWidth row < lipgloss_Width (Description (unit i)))%Z ->
        (3 < row_innerWidth row)%Z ->
        Z.of_nat (String.length (row_descStr row)) = row_innerWidth row
        /\ exists p, row_descStr row = p ++ "..."
                     /\ String.prefix p (Description (unit i)) = true).
Proof.
  intros HW l index i row Hrow.
  destruct (Render_inv l index i row HW Hrow) as (_ & _ & _ & _ & Ht & Hd).
  assert (Hcut : forall text avail shown,
    truncated text avail shown ->
    (avail < lipgloss_Width text)%Z -> (3 < avail)%Z ->
    Z.of_nat (String.length shown) = avail
    /\ exists p, shown = p ++ "..." /\ String.prefix p text = true).
  { intros text avail shown (_ & Hcut & _) Hlt H3.
    specialize (Hcut Hlt H3). pose proof (HW text) as Hlen.
    destruct (substring_prefix (Z.to_nat (avail - 3)) text ltac:(lia))
      as [Hl Hp].
    split; [|eexists; split; [exact Hcut|exact Hp]].
    rewrite Hcut, length_append, Hl. simpl. lia. }
  split; intros; eapply Hcut; eauto.
Qed.

(** *** The resize and the layout *)

Lemma View_main (m : model)
    (headerText statusText logsTab configTab headerInfo : string)
    (lay : Layout) :
  View m headerText statusText logsTab configTab headerInfo = Some (Main lay) ->
  width m <> 0%Z /\ viewMode m <> ModeDashboard
  /\ contentHeight lay = int_sub (height m) 4
  /\ contentWidth lay = int_sub (width m) 4
  /\ sidebarWidth lay = sidebarWidthOf (contentWidth lay)
  /\ mainWidth lay = int_sub (contentWidth lay) (sidebarWidth lay)
  /\ listContentWidth lay = int_sub (sidebarWidth lay) 2.
Proof.
  unfold View. cbv zeta.
  destruct (Z.eqb_spec (width m) 0) as [|Hw]; [discriminate|].
  destruct (viewMode m) eqn:Hv; cbn [Mode_eqb]; try discriminate.
  all: remember (int_sub (height m) 4) as ch eqn:Ech.
  all: remember (int_sub (width m) 4) as cw eqn:Ecw.
  all: remember (sidebarWidthOf cw) as sw eqn:Esw.
  all: remember (int_sub cw sw) as mw eqn:Emw.
  all: remember (int_sub sw 2) as lcw eqn:Elcw.
  all: match goal with
       | |- context [strings_Repeat " " ?g] => generalize g; intros spacerW
       end.
  all: destruct (strings_Repeat " " spacerW) as [sp|]; [|discriminate].
  all: rewrite bind_Some; cbv beta.
  all: match goal with
       | |- context [strings_Repeat "─" ?g] => generalize g; intros lineL
       end.
  all: destruct (strings_Repeat "─" lineL) as [ln|]; [|discriminate].
  all: rewrite bind_Some; cbv beta.
  all: intros Hlay; injection Hlay as <-.
  all: cbn [contentHeight contentWidth sidebarWidth mainWidth listContentWidth].
  all: split; [exact Hw|]; split; [discriminate|].
  all: split; [reflexivity|]; split; [reflexivity|]; split; [exact Esw|].
  all: split; [exact Emw|exact Elcw].
Qed.

Lemma Update_window (m : model) (w h : Z) (rt : Runtime) :
  let r := Update m (WindowSizeMsg w h) rt in
  let cw := int_sub w 4 in
  let sw := sidebarWidthOf cw in
  width r.1.1 = w /\ height r.1.1 = h /\ viewMode r.1.1 = viewMode m
  /\ list_ r.1.1
     = list_SetSize (list_ m) (int_sub sw 2)
         (int_sub (int_sub (int_sub h 4) 4) 2)
  /\ viewport r.1.1
     = viewport_SetHeight
         (viewport_SetWidth (viewport m) (int_sub (int_sub cw sw) 2))
         (int_sub (int_sub h 4) 4).
Proof. repeat split. Qed.

(** X14. The sizes that a window-size message gives to the widgets are those
    of the layout that the view then draws: the list gets the list content
    width of the sidebar and the content height less 6 rows, the viewport
    the main width less 2 columns and the content height less 4 rows. *)
Theorem X14_resize_matches_view :
  forall (m : model) (w h : Z) (rt : Runtime)
         (headerText statusText logsTab configTab headerInfo : string)
         (lay : Layout),
    let m' := (Update m (WindowSizeMsg w h) rt).1.1 in
    View m' headerText statusText logsTab configTab headerInfo
      = Some (Main lay) ->
    list_ m'
      = list_SetSize (list_ m) (listContentWidth lay)
          (int_sub (int_sub (contentHeight lay) 4) 2)
    /\ viewport m'
       = viewport_SetHeight
           (viewport_SetWidth (viewport m) (int_sub (mainWidth lay) 2))
           (int_sub (contentHeight lay) 4).
Proof.
  intros m w h rt hT sT lT cT hI lay m' Hview.
  destruct (View_main _ _ _ _ _ _ _ Hview)
    as (_ & _ & Hch & Hcw & Hsw & Hmw & Hlcw).
  destruct (Update_window m w h rt) as (Hw & Hh & _ & Hl & Hvp).
  fold m' in Hw, Hh, Hl, Hvp.
  rewrite Hw in Hcw. rewrite Hh in Hch.
  rewrite Hlcw, Hmw, Hsw, Hcw, Hch. split; [exact Hl|exact Hvp].
Qed.

End Properties.

(** ** The Controller on concrete inputs *)

Section Examples.
Import Plain.
#[local] Existing Instances Plain.widgets Plain.terminal.

Lemma Plain_laws : WidgetLaws.
Proof.
  split; try reflexivity.
  intros l msg. simpl. unfold Plain.pl_Update.
  destruct msg; try reflexivity.
  destruct (key_Matches k keys_Down).
  - destruct (_ <? _)%nat; reflexivity.
  - destruct (key_Matches k keys_Up); reflexivity.
Qed.

Lemma Plain_Width_le_len : Width_le_len.
Proof. intros s. simpl. lia. Qed.

Example sys_docker_observed :
  run sys0 evs_open = Some sys_docker
  /\ observe sys_docker
     = ("docker.service", [], [0], [], [false; false], [stream_docker]).
Proof. vm_compute. split; reflexivity. Qed.

(** C1, as stated, fails: logs of docker are open and one wait is blocked on
    its channel 0; the user switches to nginx, which cancels context 0,
    empties the buffer and makes channel 1; the docker goroutine, not yet
    returned, then sends a line on channel 0 to the wait that is still
    blocked there, and [Update] appends that line to the buffer of nginx. *)
Lemma C1_late_line_reaches_buffer :
  run sys_docker evs_switch = Some sys_nginx
  /\ observe sys_nginx
     = ("nginx.service", [], [0; 1], [], [true; false],
        [stream_docker; stream_nginx])
  /\ observe <$> run sys_nginx evs_late
     = Some ("nginx.service", ["late line of docker"], [1; 1], [],
             [true; false], [stream_docker; stream_nginx]).
Proof. vm_compute. repeat split. Qed.

(** The switch from docker to nginx, and the bound on the lines of channel
    0 over a run that goes on after it. *)
Lemma C1_witness :
  (let r := startStreaming (sys_model sys_docker) "nginx.service"
              (sys_rt sys_docker) in
   logLines r.1 = [] /\ logChan r.1 = Some 1)
  /\ lines_from 0 (evs_late ++ [EvRecv stream_nginx "first"; EvLine 1 "first"])
     <= pending 0 sys_nginx.
Proof.
  destruct (C1_superseded_channel_bounded (W := Plain.widgets)
              (T := Plain.terminal)) as (Hswitch & Hrun & _ & _).
  split.
  - destruct (Hswitch (sys_model sys_docker) (sys_rt sys_docker)
                "nginx.service" 0) as (H1 & _ & H3 & _).
    + reflexivity.
    + vm_compute. lia.
    + vm_compute. discriminate.
    + split; [exact H1|exact H3].
  - eapply (Hrun 0 sys_nginx).
    + split; [vm_compute; lia | vm_compute; discriminate].
    + vm_compute. reflexivity.
Defined.

(** An empty line among three is dropped; of 1001 lines the first is
    evicted. *)
Lemma C2_witness :
  logLines (fold_Update NewModel rt0 (logLineMsg <$> ["a"; ""; "b"])).1
    = ["a"; "b"]
  /\ logLines
       (fold_Update NewModel rt0
          (logLineMsg <$> "first" :: List.repeat "line" 1000)).1
     = List.repeat "line" 1000.
Proof.
  destruct (C2_log_buffer_cap_fifo (W := Plain.widgets) (T := Plain.terminal))
    as (_ & Hfifo & Hevict).
  split.
  - apply (Hfifo NewModel rt0 ["a"; ""; "b"]). simpl. lia.
  - apply (Hevict NewModel rt0 "first" (List.repeat "line" 1000)).
    + reflexivity.
    + vm_compute. reflexivity.
    + vm_compute. reflexivity.
Defined.


(** C5, as stated, fails with a list widget that keeps its cursor by index:
    nginx is selected; the next service-list result lists nginx first and
    docker second; nginx is still present, yet the selection is now docker,
    which is neither the service selected before nor the first element. *)
Lemma C5_selection_not_kept_by_name :
  let s := after sys0 evs_select_nginx in
  let s' := after s [EvMsg (UnitsMsg [Plain.nginx; Plain.docker])] in
  selected s = Some "nginx.service"
  /\ list_Items (list_ (sys_model s'))
     = [{| unit := Plain.nginx |}; {| unit := Plain.docker |}]
  /\ selected s' = Some "docker.service".
Proof. vm_compute. repeat split. Qed.

(** A service-list result in a state with a selection. *)
Lemma C5_witness :
  let r := Update (sys_model (after sys0 evs_select_nginx))
             (fetchUnits (Ok [Plain.nginx; Plain.cron; Plain.docker])) rt0 in
  allUnits r.1.1 = [Plain.nginx; Plain.cron; Plain.docker]
  /\ list_Items (list_ r.1.1)
     = [{| unit := Plain.nginx |}; {| unit := Plain.docker |}].
Proof.
  destruct (C5_units_result_replaces_collection (H := Plain_laws)
              (sys_model (after sys0 evs_select_nginx))
              [Plain.nginx; Plain.cron; Plain.docker] rt0)
    as (H1 & _ & H3 & _).
  split; [exact H1|]. rewrite H3. vm_compute. reflexivity.
Defined.

(** A toggle outside the dashboard, and a reached state. *)
Lemma C6_witness :
  (let m' := (Update (set_viewMode ModeList NewModel) (KeyMsg "d") rt0).1.1 in
   devMode m' = false /\ view_fresh m')
  /\ (let m := (fold_Update NewModel rt0
                  [UnitsMsg [Plain.docker; Plain.cron; Plain.nginx];
                   KeyMsg "enter"; KeyMsg "d"]).1 in
      view_fresh m
      /\ unit <$> list_Items (list_ m) `sublist_of` allUnits m).
Proof.
  destruct (C6_filtered_view_subsequence (H := Plain_laws))
    as (_ & Htoggle & Hreach).
  split.
  - destruct (Htoggle (set_viewMode ModeList NewModel) rt0) as (_ & H2 & H3).
    + simpl. discriminate.
    + split; [exact H2|exact H3].
  - apply Hreach.
Defined.

(** Enter on docker while the logs of docker are streaming. *)
Lemma C7_witness :
  startStreaming (sys_model sys_docker) "docker.service" (sys_rt sys_docker)
    = (sys_model sys_docker, sys_rt sys_docker)
  /\ (let m := sys_model (after sys_docker [EvMsg (KeyMsg "tab")]) in
      let r := Update m (KeyMsg "enter") (sys_rt sys_docker) in
      logLines r.1.1 = logLines m /\ logChan r.1.1 = Some 0
      /\ r.2 = sys_rt sys_docker).
Proof.
  destruct (C7_same_target_is_noop (W := Plain.widgets) (T := Plain.terminal))
    as (Hsame & Henter).
  split.
  - apply Hsame. reflexivity.
  - destruct (Henter (sys_model (after sys_docker [EvMsg (KeyMsg "tab")]))
                (sys_rt sys_docker) {| unit := Plain.docker |})
      as (H1 & _ & _ & H4 & _ & H6 & _).
    + vm_compute. discriminate.
    + reflexivity.
    + reflexivity.
    + reflexivity.
    + reflexivity.
    + split; [exact H1|]. split; [exact H4|exact H6].
Defined.


Example Render_narrow_row :
  (fun r => (row_innerWidth r, row_availableTitleWidth r, row_titleStr r,
             row_descStr r))
    <$> Render (list_SetSize list_New 20 10) 0 {| unit := Plain.docker |}
  = Some (18%Z, 8%Z, "🐳 ...", "Docker Applicat...").
Proof. vm_compute. reflexivity. Qed.


(** A list 2^62 columns wide: the gap is longer than can be allocated. *)
Example Render_too_wide :
  Render (list_SetSize list_New (2 ^ 62) 10) 0 {| unit := Plain.docker |}
  = None.
Proof. vm_compute. reflexivity. Qed.



(** The line of docker as [systemctl] prints it. *)
Lemma X2_witness :
  is_word (Name Plain.docker) /\ is_word (LoadState Plain.docker)
  /\ is_word (ActiveState Plain.docker) /\ is_word (SubState Plain.docker)
  /\ Description Plain.docker <> "".
Proof.
  apply (X2_parsed_units_have_words
           "  docker.service   loaded active running Docker Application Container Engine").
  assert (E : parseUnits
                "  docker.service   loaded active running Docker Application Container Engine"
              = [Plain.docker]) by (vm_compute; reflexivity).
  rewrite E. constructor.
Defined.

(** A line whose description has a word with a rune of three bytes that
    is no white space. *)
Lemma X3_witness :
  parseUnits "shop.service loaded active running Prices in €"
  = [{| Name := "shop.service"; LoadState := "loaded";
        ActiveState := "active"; SubState := "running";
        Description := "Prices in €" |}].
Proof.
  apply (X3_parseUnits_round_trip "shop.service" "loaded" "active" "running"
           "Prices" ["in"; "€"]).
  repeat (constructor; [split; [discriminate|reflexivity]|]). constructor.
Defined.

(** A mongo unit and a unit with an upper-case [GO] in its name. *)
Lemma X4_witness :
  Title {| unit := mkUnit "mongodb.service" "active" "MongoDB" |}
    = "🐹 mongodb.service"
  /\ Title {| unit := mkUnit "DjanGO.service" "active" "Web" |}
     = "🐹 DjanGO.service".
Proof.
  destruct (X4_gopher_icon_wins (T := Plain.terminal)) as [Hgo Hmongo].
  split.
  - apply (Hmongo {| unit := mkUnit "mongodb.service" "active" "MongoDB" |}).
    reflexivity.
  - apply (Hgo {| unit := mkUnit "DjanGO.service" "active" "Web" |}).
    reflexivity.
Defined.

(** Two presses of [d] after the units have arrived and the dashboard has
    been left. *)
Lemma X5_witness :
  let m := (fold_Update NewModel rt0
              [UnitsMsg [Plain.docker; Plain.cron; Plain.nginx];
               KeyMsg "enter"]).1 in
  let m1 := (Update m (KeyMsg "d") rt0).1.1 in
  let m2 := (Update m1 (KeyMsg "d") rt0).1.1 in
  list_Items (list_ m1)
    = [{| unit := Plain.docker |}; {| unit := Plain.cron |};
       {| unit := Plain.nginx |}]
  /\ list_Items (list_ m2) = list_Items (list_ m)
  /\ devMode m2 = true
  /\ statusMessage m2 = "Dev Mode: true".
Proof.
  intros m m1 m2.
  destruct (X5_double_toggle (H := Plain_laws) m rt0)
    as (H1 & _ & H3 & _ & _ & _ & H7).
  - vm_compute. discriminate.
  - vm_compute. reflexivity.
  - split; [vm_compute; reflexivity|]. split; [exact H3|].
    split; [exact H1|exact H7].
Defined.

(** Keys after the dashboard has been left, and a units result in the
    dashboard. *)
Lemma X6_witness :
  viewMode (fold_Update (set_viewMode ModeList NewModel) rt0
              [KeyMsg "esc"; KeyMsg "tab"; UnitsMsg []]).1
    <> ModeDashboard
  /\ (let m := (fold_Update NewModel rt0
                  [UnitsMsg [Plain.docker]; KeyMsg "x"]).1 in
      activePane m = PaneList /\ streamingUnit m = ""
      /\ logChan m = None /\ logCancel m = None).
Proof.
  destruct (X6_dashboard_left_for_good (W := Plain.widgets)
              (T := Plain.terminal)) as [Hleft Hidle].
  split.
  - apply Hleft. simpl. discriminate.
  - apply (Hidle [UnitsMsg [Plain.docker]; KeyMsg "x"] rt0). reflexivity.
Defined.

(** The stop key, the dev-filter key and the quit key while the list of
    [Plain.filtering] takes filter input. *)
Lemma X7_witness :
  let m := set_viewMode (W := Plain.filtering) ModeList NewModel in
  Update m (KeyMsg "x") rt0 = (m, [], rt0)
  /\ devMode (Update m (KeyMsg "d") rt0).1.1 = false
  /\ (Update m (KeyMsg "q") rt0).1.2 = [Cmd_Quit].
Proof.
  intros m.
  destruct (X7_keys_while_filtering (W := Plain.filtering)
              (T := Plain.terminal) m rt0) as (Hk & Hd & Hq).
  - simpl. discriminate.
  - reflexivity.
  - reflexivity.
  - split; [|split].
    + rewrite (Hk "x"); [reflexivity|reflexivity|reflexivity|discriminate].
    + rewrite Hd. reflexivity.
    + rewrite Hq. reflexivity.
Defined.

(** After the switch from docker to nginx the stream of nginx is the live
    one. *)
Lemma X8_witness :
  s_name stream_nginx = streamingUnit (sys_model sys_nginx)
  /\ logChan (sys_model sys_nginx) = Some (s_out stream_nginx)
  /\ logCancel (sys_model sys_nginx) = Some (s_ctx stream_nginx).
Proof.
  destruct (X8_at_most_one_live_stream (W := Plain.widgets)
              (T := Plain.terminal) (evs_open ++ evs_switch) sys_nginx)
    as [_ Hsub].
  - vm_compute. reflexivity.
  - apply Hsub.
    + assert (E : streams (sys_rt sys_nginx) = [stream_docker; stream_nginx])
        by (vm_compute; reflexivity).
      rewrite E. apply list_elem_of_further, list_elem_of_here.
    + apply (proj1 (bool_decide_eq_false _)). vm_compute. reflexivity.
Defined.

(** Quit while the logs of docker are streaming. *)
Lemma X9_witness :
  let r := Update (sys_model sys_docker) (KeyMsg "q") (sys_rt sys_docker) in
  r.1.1 = sys_model sys_docker /\ r.1.2 = [Cmd_Quit]
  /\ forall st : Stream, st ∈ streams r.2 -> s_ctx st ∈ cancelled r.2.
Proof.
  apply (X9_quit_cancels_every_stream (W := Plain.widgets)
           (T := Plain.terminal) evs_open sys_docker "q").
  - vm_compute. reflexivity.
  - reflexivity.
Defined.

(** The stop key on docker in the list pane. *)
Lemma X11_witness :
  let m := (fold_Update NewModel rt0
              [UnitsMsg [Plain.docker; Plain.cron; Plain.nginx];
               KeyMsg "enter"]).1 in
  viewMode m <> ModeDashboard
  /\ activePane m = PaneList
  /\ list_SettingFilter (list_ m) = false
  /\ exists i : item,
       list_SelectedItem (list_ m) = Some i
       /\ ((exists act label,
              action_of_key "x" = Some (act, label)
              /\ Cmd_performAction StopUnit "docker.service" "Stopped"
                 = Cmd_performAction act (Name (unit i)) label)
           \/ (key_Matches "x" keys_Config = true
               /\ Cmd_performAction StopUnit "docker.service" "Stopped"
                  = Cmd_fetchConfig (Name (unit i)))
           \/ (key_Matches "x" keys_Enter = true
               /\ Cmd_performAction StopUnit "docker.service" "Stopped"
                  = Cmd_waitForLogLine
                      (logChan (Update m (KeyMsg "x") rt0).1.1))).
Proof.
  intros m.
  apply (X11_effects_come_from_the_list_pane (W := Plain.widgets)
           (T := Plain.terminal) m "x" rt0
           (Cmd_performAction StopUnit "docker.service" "Stopped")).
  - assert (E : (Update m (KeyMsg "x") rt0).1.2
                = [Cmd_performAction StopUnit "docker.service" "Stopped"])
      by (vm_compute; reflexivity).
    rewrite E. apply list_elem_of_here.
  - reflexivity.
Defined.

(** Tab twice in the list mode. *)
Lemma X13_witness :
  let m := set_viewMode ModeList NewModel in
  let r1 := Update m (KeyMsg "tab") rt0 in
  activePane r1.1.1 <> activePane m
  /\ r1.1.2 = [] /\ r1.2 = rt0
  /\ Update r1.1.1 (KeyMsg "tab") rt0 = (m, [], rt0).
Proof.
  apply (X13_tab_twice (W := Plain.widgets) (T := Plain.terminal)
           (set_viewMode ModeList NewModel) rt0).
  simpl. discriminate.
Defined.

(** After the switch to nginx a wait is blocked on channel 1. *)
Lemma X15_witness : 1 <= pending 1 sys_nginx.
Proof.
  apply (X15_current_channel_is_read (W := Plain.widgets)
           (T := Plain.terminal) (evs_open ++ evs_switch) sys_nginx 1).
  - vm_compute. reflexivity.
  - vm_compute. reflexivity.
Defined.

(** Windows of 124 and of 184 columns: content widths 120 and 180, of which
    35 percent are 42 and 63; the sidebar of the second is 62 wide. *)
Lemma X10_witness :
  (let r := Update NewModel (WindowSizeMsg 124 40) rt0 in
   list_ r.1.1 = list_SetSize (list_ NewModel) 40 30
   /\ viewport r.1.1
      = viewport_SetHeight (viewport_SetWidth (viewport NewModel) 76) 32)
  /\ (let r := Update NewModel (WindowSizeMsg 184 40) rt0 in
      list_ r.1.1 = list_SetSize (list_ NewModel) 60 30).
Proof.
  split.
  - destruct (X10_window_split (W := Plain.widgets) (T := Plain.terminal)
                NewModel 124 40 rt0 ltac:(lia) ltac:(lia))
      as (_ & _ & _ & _ & _ & _ & Hl & Hv).
    split; [rewrite Hl|rewrite Hv]; vm_compute; reflexivity.
  - destruct (X10_window_split (W := Plain.widgets) (T := Plain.terminal)
                NewModel 184 40 rt0 ltac:(lia) ltac:(lia))
      as (_ & _ & _ & _ & _ & _ & Hl & _).
    cbv zeta. rewrite Hl. vm_compute. reflexivity.
Defined.

(** The row of docker in a list 20 columns wide: 8 bytes of title, 18 of
    description. *)
Lemma X12_witness :
  exists row : Row,
    Render (list_SetSize list_New 20 10) 0 {| unit := Plain.docker |}
      = Some row
    /\ String.length (row_titleStr row) = 8
    /\ String.length (row_descStr row) = 18.
Proof.
  eassert (E : Render (list_SetSize list_New 20 10) 0
                 {| unit := Plain.docker |} = Some _)
    by (vm_compute; reflexivity).
  destruct (X12_truncated_to_available_bytes (W := Plain.widgets)
              (T := Plain.terminal) Plain_Width_le_len _ _ _ _ E)
    as [Ht Hd].
  eexists. split; [exact E|]. split.
  - destruct Ht as [Ht _]; [vm_compute; reflexivity..|].
    apply Nat2Z.inj. exact Ht.
  - destruct Hd as [Hd _]; [vm_compute; reflexivity..|].
    apply Nat2Z.inj. exact Hd.
Defined.

(** A window of 124 columns and 40 rows outside the dashboard. *)
Lemma X14_witness :
  let m' := (Update (set_viewMode ModeList NewModel)
               (WindowSizeMsg 124 40) rt0).1.1 in
  list_Width (list_ m') = 40%Z /\ vp_width (viewport m') = 76%Z
  /\ vp_height (viewport m') = 32%Z.
Proof.
  intros m'.
  eassert (E : View m' "  UNIT" "STATUS " " Logs " " Config " ""
               = Some (Main _)) by (vm_compute; reflexivity).
  destruct (X14_resize_matches_view (W := Plain.widgets)
              (T := Plain.terminal) (set_viewMode ModeList NewModel)
              124 40 rt0 _ _ _ _ _ _ E) as [Hl Hv].
  fold m' in Hl, Hv. rewrite Hl, Hv. vm_compute. repeat split.
Defined.

End Examples.

End ui.
